(** * gpu-count: per-user GPU aggregation of Run:AI jobs

    A shallow embedding of [gpu-count.py] and the properties of its
    aggregation step ([consolidate_jobs]) and of its driver ([main]).

    Python values are modelled as follows.
    - [float] is IEEE binary64, through the Z-based specification
      [SpecFloat] of the Standard Library (precision 53, emax 1024), so
      that additions round exactly as CPython's do.
    - [str] is [string]; the text is taken to be ASCII (the builtin
      [float] also accepts non-ASCII digits and spaces, which are outside
      this model).
    - the values returned by [json.loads] / [Response.json] are the
      inductive type [json]; a Python [dict] is the list of its items in
      insertion order.
    - [print] and the file writes are events of an output trace; an
      exception that nobody catches ends the run.
    - an [int] of more than 4300 digits, which Python 3.11 and later
      refuse to turn into text or to read from text, is printed and
      decoded here as any other; the properties that depend on it carry
      the bound as a hypothesis. *)

From Stdlib Require Import ZArith List String Ascii Bool Lia Permutation FinFun.
From Stdlib Require Import Floats.SpecFloat.
Import ListNotations.

Local Open Scope string_scope.
Local Open Scope list_scope.
Local Open Scope Z_scope.

Set Warnings "-register-all".

(** ** Exceptions and results

    [RequestException] stands for [requests.exceptions.RequestException]
    and its subclasses ([ConnectionError], [Timeout], [HTTPError],
    [JSONDecodeError]), which one [except] clause catches alike;
    [ValueError] covers [json.JSONDecodeError], its subclass, and
    [OSError] the errors of the file system ([FileNotFoundError],
    [PermissionError], ...). *)

Inductive exn :=
| AttributeError
| TypeError
| ValueError
| OverflowError
| KeyError
| OSError
| RequestException
| SystemExit (code : Z).

Inductive result (A : Type) :=
| Ok (a : A)
| Raise (e : exn).
Arguments Ok {A} a.
Arguments Raise {A} e.

(** ** Python floats *)

Module PyFloat.

Definition float := spec_float.
Definition prec : Z := 53.
Definition emax : Z := 1024.

(** [x + y] on floats. *)
Definition fadd : float -> float -> float := SFadd prec emax.

(** The literal [0.0]. *)
Definition zero : float := S754_zero false.

(** The double nearest to the integer [z] (ties to even); an integer
    beyond the range rounds to an infinity. *)
Definition of_Z (z : Z) : float := binary_normalize prec emax z 0 false.

(** The double nearest to [n / d], with the sign [neg]: the division of
    [SpecFloat] run on the exact numerator and denominator. *)
Definition of_ratio (neg : bool) (n d : positive) : float :=
  SFdiv prec emax (S754_finite neg n 0) (S754_finite false d 0).

(** The double nearest to [d * 10^e], what [strtod] returns for the
    digits [d] and the decimal exponent [e]. *)
Definition of_decimal (neg : bool) (d : Z) (e : Z) : float :=
  match d with
  | Zpos p =>
      match e with
      | Zneg k => of_ratio neg p (Pos.pow 10 k)
      | _ => of_Z (if neg then - (d * 10 ^ e) else d * 10 ^ e)
      end
  | _ => S754_zero neg
  end.

(** [float(n)] for a Python [int]: [OverflowError] when the rounded
    value is not finite. *)
Definition float_of_int (z : Z) : result float :=
  match of_Z z with
  | S754_infinity _ => Raise OverflowError
  | f => Ok f
  end.

(** *** [float(s)] for a string *)

Definition code (c : ascii) : Z := Z.of_N (N_of_ascii c).

Definition is_digit (c : ascii) : bool := (48 <=? code c) && (code c <=? 57).

Definition digit_val (c : ascii) : Z := code c - 48.

(** [Py_ISSPACE]: space, and the characters 9 to 13. *)
Definition is_space (c : ascii) : bool :=
  (code c =? 32) || ((9 <=? code c) && (code c <=? 13)).

Definition to_lower (c : ascii) : ascii :=
  if (65 <=? code c) && (code c <=? 90)
  then ascii_of_N (N_of_ascii c + 32) else c.

(** An underscore is accepted only between two digits, and is dropped
    ([_Py_string_to_number_with_underscores]); [prev] is the previous
    character of the text, if any. *)
Fixpoint strip_underscores (prev : option ascii) (s : list ascii)
  : option (list ascii) :=
  match s with
  | [] =>
      match prev with
      | Some "_"%char => None
      | _ => Some []
      end
  | c :: rest =>
      if Ascii.eqb c "_"%char then
        match prev with
        | Some p => if is_digit p then strip_underscores (Some c) rest else None
        | None => None
        end
      else
        match prev with
        | Some "_"%char =>
            if is_digit c
            then option_map (cons c) (strip_underscores (Some c) rest)
            else None
        | _ => option_map (cons c) (strip_underscores (Some c) rest)
        end
  end.

Fixpoint drop_spaces (s : list ascii) : list ascii :=
  match s with
  | c :: rest => if is_space c then drop_spaces rest else s
  | [] => []
  end.

Definition strip (s : list ascii) : list ascii :=
  rev (drop_spaces (rev (drop_spaces s))).

(** The longest prefix of digits: its value after [acc], its length
    after [n], and the rest of the text. *)
Fixpoint take_digits (s : list ascii) (acc : Z) (n : Z)
  : Z * Z * list ascii :=
  match s with
  | c :: rest =>
      if is_digit c then take_digits rest (acc * 10 + digit_val c) (n + 1)
      else (acc, n, s)
  | [] => (acc, n, [])
  end.

Definition take_sign (s : list ascii) : bool * list ascii :=
  match s with
  | "-"%char :: rest => (true, rest)
  | "+"%char :: rest => (false, rest)
  | _ => (false, s)
  end.

(** The exponent part, [e] or [E], an optional sign and at least one
    digit, up to the end of the text; no exponent part is exponent 0. *)
Definition parse_exponent (s : list ascii) : option Z :=
  match s with
  | [] => Some 0
  | c :: rest =>
      if Ascii.eqb (to_lower c) "e"%char then
        let '(neg, rest1) := take_sign rest in
        match take_digits rest1 0 0 with
        | (v, n, []) => if 0 <? n then Some (if neg then - v else v) else None
        | _ => None
        end
      else None
  end.

(** A decimal numeral without its sign: digits, an optional point and
    digits, at least one digit in all, an optional exponent part. The
    numeral denotes [d * 10^e] for the pair [(d, e)] returned. *)
Definition parse_decimal (s : list ascii) : option (Z * Z) :=
  let '(iv, ni, rest) := take_digits s 0 0 in
  let '(dv, nf, rest1) :=
    match rest with
    | "."%char :: r => take_digits r iv 0
    | _ => (iv, 0, rest)
    end in
  if 0 <? ni + nf then
    match parse_exponent rest1 with
    | Some ex => Some (dv, ex - nf)
    | None => None
    end
  else None.

Definition lower_string (s : list ascii) : string :=
  string_of_list_ascii (map to_lower s).

(** [float(s)]: [None] stands for [ValueError]. *)
Definition float_of_string (s : string) : option float :=
  match strip_underscores None (list_ascii_of_string s) with
  | None => None
  | Some s1 =>
      let '(neg, body) := take_sign (strip s1) in
      match parse_decimal body with
      | Some (d, e) => Some (of_decimal neg d e)
      | None =>
          let w := lower_string body in
          if String.eqb w "inf" || String.eqb w "infinity"
          then Some (S754_infinity neg)
          else if String.eqb w "nan" then Some S754_nan
          else None
      end
  end.

(** *** [round(x, 2)]

    CPython prints [x] with two digits after the point, correctly
    rounded (ties to even, on the exact value of [x]), and reads the
    decimal numeral back: the result is the double nearest to [k / 100],
    for [k] the integer nearest to [100 * x]. Infinities, NaN and zeros
    are returned as they are. *)

(** The integer nearest to [n * 2^e], ties to even, for [0 <= n]. *)
Definition nearest_even (n : Z) (e : Z) : Z :=
  match e with
  | Zneg p =>
      let d := Z.pow 2 (Zpos p) in
      let q := n / d in
      let r := n mod d in
      match 2 * r ?= d with
      | Lt => q
      | Gt => q + 1
      | Eq => if Z.even q then q else q + 1
      end
  | _ => n * 2 ^ e
  end.

(** The double nearest to [k / 100], with the sign [neg]. *)
Definition of_hundredths (neg : bool) (k : Z) : float :=
  match k with
  | Zpos p => of_ratio neg p 100
  | _ => S754_zero neg
  end.

Definition round2 (x : float) : float :=
  match x with
  | S754_finite s m e => of_hundredths s (nearest_even (Zpos m * 100) e)
  | _ => x
  end.

(** [0 <= x], as Python compares floats: false on NaN. *)
Definition nonneg (x : float) : bool := SFleb zero x.

End PyFloat.

Import PyFloat.

(** ** JSON values

    What [json.loads] builds: [None], [bool], [int], [float], [str],
    [list] and [dict]. [JObj] holds the items of the dict in insertion
    order, each name once. *)

Inductive json :=
| JNull
| JBool (b : bool)
| JInt (n : Z)
| JFloat (f : float)
| JStr (s : string)
| JArr (items : list json)
| JObj (fields : list (string * json)).

(** The value stored in a dict under [name], if any. *)
Fixpoint dict_find (fields : list (string * json)) (name : string)
  : option json :=
  match fields with
  | [] => None
  | (n, v) :: rest => if String.eqb n name then Some v else dict_find rest name
  end.

(** [d.get(name, default)] on a dict. *)
Definition dict_get (fields : list (string * json)) (name : string)
  (default : json) : json :=
  match dict_find fields name with
  | Some v => v
  | None => default
  end.

(** [v.get(name, default)] on any value: only a dict has the method. *)
Definition py_get (v : json) (name : string) (default : json) : result json :=
  match v with
  | JObj fields => Ok (dict_get fields name default)
  | _ => Raise AttributeError
  end.

(** The truth value of [v], as [if v:] tests it. *)
Definition truthy (v : json) : bool :=
  match v with
  | JNull => false
  | JBool b => b
  | JInt n => negb (n =? 0)
  | JFloat (S754_zero _) => false
  | JFloat _ => true
  | JStr s => negb (String.eqb s "")
  | JArr items => match items with [] => false | _ => true end
  | JObj fields => match fields with [] => false | _ => true end
  end.

(** [for x in v]: the elements of a list, the names of a dict, the
    characters of a string; other values are not iterable. *)
Definition iterate (v : json) : result (list json) :=
  match v with
  | JArr items => Ok items
  | JObj fields => Ok (map (fun nv => JStr (fst nv)) fields)
  | JStr s => Ok (map (fun c => JStr (String c EmptyString)) (list_ascii_of_string s))
  | _ => Raise TypeError
  end.

(** [float(v)]. Only a string raises [ValueError]; [None], lists and
    dicts raise [TypeError], and an [int] out of range [OverflowError]. *)
Definition py_float (v : json) : result float :=
  match v with
  | JStr s =>
      match float_of_string s with
      | Some f => Ok f
      | None => Raise ValueError
      end
  | JInt n => float_of_int n
  | JBool b => Ok (of_Z (if b then 1 else 0))
  | JFloat f => Ok f
  | JNull | JArr _ | JObj _ => Raise TypeError
  end.

(** *** Dictionary keys

    Two values are the same dictionary key when Python finds them equal:
    strings by their text, and numbers by their exact value, whatever
    their type ([True == 1 == 1.0]). A number [m * 2^e] is kept with [m]
    odd, or as [0 * 2^0]. The NaN of a JSON text is the one object
    [json.decoder.NaN], hence one key. Lists and dicts are unhashable. *)

Inductive key :=
| KNone
| KStr (s : string)
| KNum (m : Z) (e : Z)
| KInf (neg : bool)
| KNaN.

Fixpoint odd_part (m : positive) (e : Z) : positive * Z :=
  match m with
  | xO p => odd_part p (e + 1)
  | _ => (m, e)
  end.

Definition num_key (neg : bool) (m : positive) (e : Z) : key :=
  let '(m', e') := odd_part m e in
  KNum (if neg then Zneg m' else Zpos m') e'.

Definition int_key (n : Z) : key :=
  match n with
  | Z0 => KNum 0 0
  | Zpos p => num_key false p 0
  | Zneg p => num_key true p 0
  end.

(** [None] when [hash(v)] raises [TypeError]. *)
Definition hash_key (v : json) : option key :=
  match v with
  | JNull => Some KNone
  | JBool b => Some (int_key (if b then 1 else 0))
  | JInt n => Some (int_key n)
  | JFloat (S754_zero _) => Some (KNum 0 0)
  | JFloat (S754_infinity s) => Some (KInf s)
  | JFloat S754_nan => Some KNaN
  | JFloat (S754_finite s m e) => Some (num_key s m e)
  | JStr s => Some (KStr s)
  | JArr _ | JObj _ => None
  end.

Definition key_eq_dec (a b : key) : {a = b} + {a <> b}.
Proof.
  decide equality; try apply Z.eq_dec; try apply string_dec; apply bool_dec.
Defined.

Definition key_eqb (a b : key) : bool :=
  if key_eq_dec a b then true else false.

(** ** Output *)

(** A row of the report: the dict
    [{'user': ..., 'totalRequestedGPUs': ..., 'jobCount': ...}]. *)
Record row := {
  user : json;
  totalRequestedGPUs : float;
  jobCount : Z
}.

(** What the program does to the outside, in order.
    - [Print s] is [print(s)];
    - [Warning gpus user] is
      [print(f"Warning: Invalid GPU value '{gpus}' for user {user}. Setting to 0.")];
    - [Dump rows] is [print(json.dumps(rows, indent=2))];
    - [EnsureDir d] is [if not os.path.exists(d): os.makedirs(d)];
    - [WriteCsv path rows] is [pd.DataFrame(rows).to_csv(path, index=False)];
    - [WriteHtml path rows] is the [write_html] of the figure built from
      [rows]. *)
Inductive event :=
| Print (s : string)
| Warning (gpus : json) (user : json)
| Dump (rows : list row)
| EnsureDir (dir : string)
| WriteCsv (path : string) (rows : list row)
| WriteHtml (path : string) (rows : list row).

(** A computation that writes events and ends with a value or with an
    exception. *)
Definition M (A : Type) : Type := list event * result A.

Definition ret {A} (a : A) : M A := ([], Ok a).

Definition raise {A} (e : exn) : M A := ([], Raise e).

Definition emit (ev : event) : M unit := ([ev], Ok tt).

Definition lift {A} (r : result A) : M A := ([], r).

Definition bind {A B} (m : M A) (f : A -> M B) : M B :=
  match m with
  | (out, Ok a) => let '(out', r) := f a in (out ++ out', r)
  | (out, Raise e) => (out, Raise e)
  end.

Declare Scope py_scope.
Delimit Scope py_scope with py.
Notation "x <- m ;; k" := (bind m (fun x => k))
  (at level 61, m at next level, right associativity) : py_scope.
Notation "m ;; k" := (bind m (fun _ => k))
  (at level 61, right associativity) : py_scope.
Local Open Scope py_scope.

(** ** The aggregator *)

(** The value type of [user_jobs], made by the [defaultdict] factory
    [lambda: {'totalRequestedGPUs': 0.0, 'jobCount': 0}]. *)
Record acc := {
  acc_totalRequestedGPUs : float;
  acc_jobCount : Z
}.

Definition default_acc : acc :=
  {| acc_totalRequestedGPUs := zero; acc_jobCount := 0 |}.

(** An item of [user_jobs]: the key object first inserted, and its
    value. The list of entries is the dict in insertion order. *)
Record entry := {
  e_key : key;
  e_user : json;
  e_acc : acc
}.

Definition user_jobs_t := list entry.

(** [user_jobs[user]] of a [defaultdict]: a missing key is inserted, last,
    with the default value. *)
Fixpoint getitem_default (d : user_jobs_t) (k : key) (u : json) : user_jobs_t :=
  match d with
  | [] => [ {| e_key := k; e_user := u; e_acc := default_acc |} ]
  | x :: rest =>
      if key_eqb (e_key x) k then d else x :: getitem_default rest k u
  end.

(** The update in place of the value stored at [k]. *)
Fixpoint update (d : user_jobs_t) (k : key) (f : acc -> acc) : user_jobs_t :=
  match d with
  | [] => []
  | x :: rest =>
      if key_eqb (e_key x) k
      then {| e_key := e_key x; e_user := e_user x; e_acc := f (e_acc x) |} :: rest
      else x :: update rest k f
  end.

(** [user_jobs[user][...] += ...]: [TypeError] on an unhashable [user]. *)
Definition setitem_with (d : user_jobs_t) (u : json) (f : acc -> acc)
  : M user_jobs_t :=
  match hash_key u with
  | Some k => ret (update (getitem_default d k u) k f)
  | None => raise TypeError
  end.

Definition add_gpus (g : float) (a : acc) : acc :=
  {| acc_totalRequestedGPUs := fadd (acc_totalRequestedGPUs a) g;
     acc_jobCount := acc_jobCount a |}.

Definition add_job (a : acc) : acc :=
  {| acc_totalRequestedGPUs := acc_totalRequestedGPUs a;
     acc_jobCount := acc_jobCount a + 1 |}.

(** The [try] block: [ValueError] is caught, with a warning and [0.0];
    any other exception goes on. The warning is taken to print: the one
    value Python cannot format here is a user that is an [int] of more
    than 4300 digits (Python 3.11 and later), see [printable]. *)
Definition parse_gpus (gpus user : json) : M float :=
  match py_float gpus with
  | Ok g => ret g
  | Raise ValueError => emit (Warning gpus user) ;; ret zero
  | Raise e => raise e
  end.

(** The body of the [for] loop. *)
Definition loop_body (user_jobs : user_jobs_t) (job : json) : M user_jobs_t :=
  user <- lift (py_get job "user" (JStr "Unknown")) ;;
  gpus <- lift (py_get job "totalRequestedGPUs" (JStr "0")) ;;
  gpus <- parse_gpus gpus user ;;
  user_jobs <- setitem_with user_jobs user (add_gpus gpus) ;;
  setitem_with user_jobs user add_job.

Fixpoint for_each (jobs : list json) (user_jobs : user_jobs_t) : M user_jobs_t :=
  match jobs with
  | [] => ret user_jobs
  | job :: rest =>
      user_jobs <- loop_body user_jobs job ;;
      for_each rest user_jobs
  end.

(** The list comprehension over [user_jobs.items()]. *)
Definition to_row (x : entry) : row :=
  {| user := e_user x;
     totalRequestedGPUs := round2 (acc_totalRequestedGPUs (e_acc x));
     jobCount := acc_jobCount (e_acc x) |}.

Definition consolidate_jobs (jobs : list json) : M (list row) :=
  user_jobs <- for_each jobs [] ;;
  ret (map to_row user_jobs).

(** A job record with the two fields the program reads. *)
Definition job (u : string) (gpus : json) : json :=
  JObj [("user", JStr u); ("totalRequestedGPUs", gpus)].

(** ** The program around the aggregator *)

Definition APPNAME : string := "APPNAME".
Definition APPSECRET : string := "APPSECRET".
Definition APPURL : string := "https://xxxx.com".
Definition REALM : string := "runai".

(** An HTTP response: [r.status_code], [r.text], and what [json.loads]
    makes of the text ([None] when the text is not JSON). *)
Record response := {
  status_code : Z;
  text : string;
  body : option json
}.

(** What a request comes to: [requests] raises (no connection, timeout),
    or a response arrives. *)
Inductive http_result :=
| NoResponse
| Got (r : response).

(** The outside of one run.
    - [args] is what [parser.parse_args()] comes to: the value of
      [--cluster], or the [SystemExit] that argparse raises;
    - [http_post url data] and [http_get url token] are the answers of the
      servers;
    - [csv_time] and [html_time] are the two readings of
      [datetime.now().strftime("%Y%m%d_%H%M%S")];
    - [dir_ok d] tells whether [os.makedirs(d)] succeeds when [d] does not
      exist, and [file_ok path] whether the file system lets a file be
      written at [path] (its directory exists, the name is allowed, there
      is room); a refusal is an [OSError]. *)
Record world := {
  args : result string;
  http_post : string -> string -> http_result;
  http_get : string -> json -> http_result;
  csv_time : string;
  html_time : string;
  dir_ok : string -> bool;
  file_ok : string -> bool
}.

(** [v[name]] for a string [name]: [KeyError] on a dict without the
    name, [TypeError] on any other value. *)
Definition subscript (v : json) (name : string) : result json :=
  match v with
  | JObj fields =>
      match dict_find fields name with
      | Some x => Ok x
      | None => Raise KeyError
      end
  | _ => Raise TypeError
  end.

Definition requests_post (w : world) (url data : string) : M response :=
  match http_post w url data with
  | Got r => ret r
  | NoResponse => raise RequestException
  end.

Definition requests_get (w : world) (url : string) (token : json) : M response :=
  match http_get w url token with
  | Got r => ret r
  | NoResponse => raise RequestException
  end.

(** [json.loads(r.text)]. *)
Definition json_loads (r : response) : M json :=
  match body r with
  | Some v => ret v
  | None => raise ValueError
  end.

(** [r.raise_for_status()]: an [HTTPError] for the statuses 400 to 599,
    and nothing for any other status. *)
Definition raise_for_status (r : response) : M unit :=
  if (400 <=? status_code r) && (status_code r <? 600)
  then raise RequestException
  else ret tt.

(** [r.json()]: since requests 2.27 a text that is not JSON raises
    [requests.exceptions.JSONDecodeError], a [RequestException]. A text
    that is JSON is taken to decode to its value [body]; what Python
    refuses to decode for another reason (an [int] of more than 4300
    digits, nesting beyond the recursion limit) is outside the model. *)
Definition response_json (r : response) : M json :=
  match body r with
  | Some v => ret v
  | None => raise RequestException
  end.

(** [try: m except requests.exceptions.RequestException: h]. *)
Definition try_except_request {A} (m : M A) (h : M A) : M A :=
  match m with
  | (out, Raise RequestException) => let '(out', r) := h in (out ++ out', r)
  | _ => m
  end.

Definition login_payload : string :=
  ("grant_type=client_credentials&client_id=" ++ APPNAME
     ++ "&client_secret=" ++ APPSECRET)%string.

Definition login_url : string :=
  (APPURL ++ "/auth/realms/" ++ REALM
     ++ "/protocol/openid-connect/token")%string.

Definition login (w : world) : M json :=
  let payload := login_payload in
  let url := login_url in
  r <- requests_post w url payload ;;
  if status_code r / 100 =? 2 then
    v <- json_loads r ;;
    lift (subscript v "access_token")
  else
    emit (Print ("Login error: " ++ text r)%string) ;;
    raise (SystemExit 1).

(** The result is a JSON value; Python's [None] is [JNull]. *)
Definition jobs_url (cluster_id : string) : string :=
  (APPURL ++ "/v1/k8s/clusters/" ++ cluster_id ++ "/jobs/")%string.

Definition get_job_information (w : world) (token : json) (cluster_id : string)
  : M json :=
  let url := jobs_url cluster_id in
  try_except_request
    (r <- requests_get w url token ;;
     raise_for_status r ;;
     emit (Print "200") ;;
     response_json r)
    (emit (Print "Script is not working") ;;
     ret JNull).

(** [if not os.path.exists(d): os.makedirs(d)]. *)
Definition ensure_dir (w : world) (d : string) : M unit :=
  if dir_ok w d then emit (EnsureDir d) else raise OSError.

(** [df.to_csv(path, index=False)] and [fig.write_html(path, ...)]: the
    write [ev] of the file at [path], or the [OSError] of the file
    system. *)
Definition write_file (w : world) (path : string) (ev : event) : M unit :=
  if file_ok w path then emit ev else raise OSError.

Definition save_to_csv (w : world) (data : list row) (cluster_id : string)
  : M unit :=
  let audit_folder := "audit" in
  ensure_dir w audit_folder ;;
  let timestamp := csv_time w in
  let filename := ("job_audit_" ++ cluster_id ++ "_" ++ timestamp ++ ".csv")%string in
  let filepath := (audit_folder ++ "/" ++ filename)%string in
  write_file w filepath (WriteCsv filepath data) ;;
  emit (Print ("Audit data saved to " ++ filepath)%string).

(** [df['user']], the first use of a column: [KeyError] on the frame of
    an empty list, which has no column. *)
Definition column_user (data : list row) : M unit :=
  match data with
  | [] => raise KeyError
  | _ => ret tt
  end.

Definition create_html_graph (w : world) (data : list row) (cluster_id : string)
  : M unit :=
  column_user data ;;
  let audit_folder := "audit" in
  ensure_dir w audit_folder ;;
  let timestamp := html_time w in
  let filename := ("job_audit_" ++ cluster_id ++ "_" ++ timestamp ++ ".html")%string in
  let filepath := (audit_folder ++ "/" ++ filename)%string in
  write_file w filepath (WriteHtml filepath data) ;;
  emit (Print ("HTML graph saved to " ++ filepath)%string).

Definition is_list (v : json) : bool :=
  match v with
  | JArr _ => true
  | _ => false
  end.

Definition main (w : world) : M unit :=
  cluster <- lift (args w) ;;
  token <- login w ;;
  result <- get_job_information w token cluster ;;
  if truthy result then
    jobs <- (if is_list result then ret result
             else lift (py_get result "jobs" (JArr []))) ;;
    if negb (truthy jobs) then
      emit (Print "No jobs found in the API response.")
    else
      job_list <- lift (iterate jobs) ;;
      consolidated_jobs <- consolidate_jobs job_list ;;
      emit (Print "Consolidated Jobs:") ;;
      emit (Dump consolidated_jobs) ;;
      save_to_csv w consolidated_jobs cluster ;;
      create_html_graph w consolidated_jobs cluster ;;
      emit (Print "Script is working")
  else
    emit (Print "Script is not working").

(** The exit status of the process: 0 when [main] returns, the code of a
    [SystemExit], and 1 after a traceback. *)
Definition exit_code (r : result unit) : Z :=
  match r with
  | Ok _ => 0
  | Raise (SystemExit c) => c
  | Raise _ => 1
  end.

(** The files a trace writes. *)
Fixpoint files_written (out : list event) : list string :=
  match out with
  | [] => []
  | WriteCsv path _ :: rest => path :: files_written rest
  | WriteHtml path _ :: rest => path :: files_written rest
  | _ :: rest => files_written rest
  end.

(** A server that answers the token request with [r1] and the jobs
    request with [r2], for [--cluster c1], on a file system that lets
    everything be written. *)
Definition sample_world (r1 r2 : http_result) : world :=
  {| args := Ok "c1";
     http_post := fun _ _ => r1;
     http_get := fun _ _ => r2;
     csv_time := "20240101_000000";
     html_time := "20240101_000001";
     dir_ok := fun _ => true;
     file_ok := fun _ => true |}.

Definition quoted (s : string) : string :=
  String (ascii_of_N 34) (s ++ String (ascii_of_N 34) EmptyString)%string.

Definition token_response : http_result :=
  Got {| status_code := 200;
         text := ("{" ++ quoted "access_token" ++ ": " ++ quoted "t" ++ "}")%string;
         body := Some (JObj [("access_token", JStr "t")]) |}.

(** ** What the aggregation should compute

    The definitions below follow the description of the aggregator, not
    its loop: a job is read into an item (user key, user, GPU value);
    the rows are the distinct users in first-seen order, each with the
    float sum and the number of its items. *)

Record item := {
  i_key : key;
  i_user : json;
  i_gpus : float
}.

(** What one job contributes, before [user_jobs] is touched. *)
Definition read_job (job : json) : M item :=
  user <- lift (py_get job "user" (JStr "Unknown")) ;;
  gpus <- lift (py_get job "totalRequestedGPUs" (JStr "0")) ;;
  g <- parse_gpus gpus user ;;
  match hash_key user with
  | Some k => ret {| i_key := k; i_user := user; i_gpus := g |}
  | None => raise TypeError
  end.

Fixpoint read_all (jobs : list json) : M (list item) :=
  match jobs with
  | [] => ret []
  | job :: rest =>
      it <- read_job job ;;
      its <- read_all rest ;;
      ret (it :: its)
  end.

(** One pass over [user_jobs] that does both updates of the loop body. *)
Fixpoint record (d : user_jobs_t) (it : item) : user_jobs_t :=
  match d with
  | [] =>
      [ {| e_key := i_key it; e_user := i_user it;
           e_acc := add_job (add_gpus (i_gpus it) default_acc) |} ]
  | x :: rest =>
      if key_eqb (e_key x) (i_key it)
      then {| e_key := e_key x; e_user := e_user x;
              e_acc := add_job (add_gpus (i_gpus it) (e_acc x)) |} :: rest
      else x :: record rest it
  end.

(** The user key of a job, when the job is a dict and its user is
    hashable. *)
Definition key_of_job (job : json) : option key :=
  match py_get job "user" (JStr "Unknown") with
  | Ok u => hash_key u
  | Raise _ => None
  end.

(** The float a job adds to its user's sum, when [float] does not let an
    exception through: the parsed value, or [0.0] for a string that does
    not parse. *)
Definition contribution (job : json) : option float :=
  match py_get job "totalRequestedGPUs" (JStr "0") with
  | Ok v =>
      match py_float v with
      | Ok g => Some g
      | Raise ValueError => Some zero
      | Raise _ => None
      end
  | Raise _ => None
  end.

(** The jobs of the user [k], in their order in the list. *)
Definition jobs_of (k : key) (jobs : list json) : list json :=
  filter (fun job =>
            match key_of_job job with
            | Some k' => key_eqb k' k
            | None => false
            end) jobs.

Definition items_of (k : key) (its : list item) : list item :=
  filter (fun it => key_eqb (i_key it) k) its.

(** The sum of floats, from [0.0], left to right. *)
Definition float_sum (gs : list float) : float := fold_left fadd gs zero.

(** The distinct keys of a list, each at its first occurrence. *)
Fixpoint first_seen (ks : list key) : list key :=
  match ks with
  | [] => []
  | k :: rest => k :: filter (fun k' => negb (key_eqb k' k)) (first_seen rest)
  end.

Definition first_user (k : key) (its : list item) : json :=
  match items_of k its with
  | it :: _ => i_user it
  | [] => JNull
  end.

Definition entry_of (its : list item) (k : key) : entry :=
  {| e_key := k;
     e_user := first_user k its;
     e_acc :=
       {| acc_totalRequestedGPUs := float_sum (map i_gpus (items_of k its));
          acc_jobCount := Z.of_nat (List.length (items_of k its)) |} |}.

Definition expected_entries (its : list item) : list entry :=
  map (entry_of its) (first_seen (map i_key its)).

(** The same, read off the jobs. [user_of_job] and [gpus_of_job] are
    meant for jobs that [read_job] accepts. *)
Definition user_of_job (job : json) : json :=
  match py_get job "user" (JStr "Unknown") with
  | Ok u => u
  | Raise _ => JNull
  end.

Definition gpus_of_job (job : json) : float :=
  match contribution job with
  | Some g => g
  | None => zero
  end.

Definition observed_keys (jobs : list json) : list key :=
  flat_map (fun job =>
              match key_of_job job with
              | Some k => [k]
              | None => []
              end) jobs.

(** The float sum of the GPU values of the jobs of [k], in list order. *)
Definition user_total (k : key) (jobs : list json) : float :=
  float_sum (map gpus_of_job (jobs_of k jobs)).

Definition row_of (jobs : list json) (k : key) : row :=
  {| user :=
       match jobs_of k jobs with
       | job :: _ => user_of_job job
       | [] => JNull
       end;
     totalRequestedGPUs := round2 (user_total k jobs);
     jobCount := Z.of_nat (List.length (jobs_of k jobs)) |}.

Definition expected_rows (jobs : list json) : list row :=
  map (row_of jobs) (first_seen (observed_keys jobs)).

(** A job that the loop body takes without an exception, and the
    warnings of a job. *)
Definition job_ok (job : json) : Prop :=
  exists it, snd (read_job job) = Ok it.

Definition warnings_of (job : json) : list event := fst (read_job job).

(** What an item says of the job it was read from. *)
Definition reads (job : json) (it : item) : Prop :=
  key_of_job job = Some (i_key it)
  /\ user_of_job job = i_user it
  /\ gpus_of_job job = i_gpus it.

(** The key of a row; [KNone] never stands for an unhashable user here,
    since such a user never reaches a row. *)
Definition row_key (r : row) : option key := hash_key (user r).

(** The jobs counted in [user_jobs], and in the rows. *)
Definition count_sum (d : user_jobs_t) : Z :=
  fold_right Z.add 0 (map (fun x => acc_jobCount (e_acc x)) d).

Definition total_jobs (rows : list row) : Z :=
  fold_right Z.add 0 (map jobCount rows).

(** A float with two decimals: the double nearest to some [k / 100]; the
    infinities and NaN, which [round] leaves as they are, apart. *)
Definition two_decimals (f : float) : Prop :=
  (exists s k, 0 <= k /\ f = of_hundredths s k)
  \/ (exists s, f = S754_infinity s) \/ f = S754_nan.

(** A float that is zero, finite or infinite with the sign bit [s]. *)
Definition signed (s : bool) (x : float) : Prop :=
  match x with
  | S754_zero s' | S754_infinity s' | S754_finite s' _ _ => s' = s
  | S754_nan => False
  end.

(** ** Sample inputs *)

Definition sample_jobs : list json :=
  [job "A" (JStr "1"); job "A" (JStr "1.5"); job "B" (JStr "3")].

(** The floats [2.5] and [3.0]. *)
Definition f2_5 : float := S754_finite false 5629499534213120 (-51).
Definition f3_0 : float := S754_finite false 6755399441055744 (-51).

Definition row_A : row :=
  {| user := JStr "A"; totalRequestedGPUs := f2_5; jobCount := 2 |}.
Definition row_B : row :=
  {| user := JStr "B"; totalRequestedGPUs := f3_0; jobCount := 1 |}.

Definition sample_response (status : Z) (v : json) : http_result :=
  Got {| status_code := status; text := "..."; body := Some v |}.

(** ** More of what the code shows *)

(** A job that the loop body takes: a dict whose user is hashable and
    whose GPU value [float] converts, or rejects with [ValueError]. *)
Definition acceptable (job : json) : Prop :=
  exists fields k,
    job = JObj fields
    /\ hash_key (dict_get fields "user" (JStr "Unknown")) = Some k
    /\ ((exists g,
            py_float (dict_get fields "totalRequestedGPUs" (JStr "0")) = Ok g)
        \/ py_float (dict_get fields "totalRequestedGPUs" (JStr "0"))
           = Raise ValueError).

(** The warning that the loop body prints for a job, if any. *)
Definition expected_warning (job : json) : list event :=
  match job with
  | JObj fields =>
      let u := dict_get fields "user" (JStr "Unknown") in
      let v := dict_get fields "totalRequestedGPUs" (JStr "0") in
      match py_float v with
      | Raise ValueError => [Warning v u]
      | _ => []
      end
  | _ => []
  end.

(** A job record with the defaults of its two fields written out. *)
Definition add_default (name : string) (v : json)
  (fields : list (string * json)) : list (string * json) :=
  match dict_find fields name with
  | Some _ => fields
  | None => fields ++ [(name, v)]
  end.

Definition fill_defaults (job : json) : json :=
  match job with
  | JObj fields =>
      JObj (add_default "totalRequestedGPUs" (JStr "0")
              (add_default "user" (JStr "Unknown") fields))
  | _ => job
  end.

(** The paths of the two report files. *)
Definition csv_path (w : world) (cluster_id : string) : string :=
  ("audit/job_audit_" ++ cluster_id ++ "_" ++ csv_time w ++ ".csv")%string.

Definition html_path (w : world) (cluster_id : string) : string :=
  ("audit/job_audit_" ++ cluster_id ++ "_" ++ html_time w ++ ".html")%string.

(** [result if isinstance(result, list) else result.get('jobs', [])]. *)
Definition extract_jobs (v : json) : result json :=
  if is_list v then Ok v else py_get v "jobs" (JArr []).

(** A run in which the arguments parse, [login] returns a token and the
    jobs request is answered with the JSON value [v]. *)
Definition fetched (w : world) (cluster : string) (v : json) : Prop :=
  args w = Ok cluster
  /\ exists token,
       login w = ([], Ok token)
       /\ get_job_information w token cluster = ([Print "200"], Ok v).

(** What [main] prints and writes once it has the rows. *)
Definition report (w : world) (cluster : string) (rows : list row) : list event :=
  [ Print "Consolidated Jobs:"; Dump rows;
    EnsureDir "audit"; WriteCsv (csv_path w cluster) rows;
    Print ("Audit data saved to " ++ csv_path w cluster)%string;
    EnsureDir "audit"; WriteHtml (html_path w cluster) rows;
    Print ("HTML graph saved to " ++ html_path w cluster)%string;
    Print "Script is working" ].

(** The end of [main], once it has the rows. *)
Definition write_reports (w : world) (cluster : string) (rows : list row)
  : M unit :=
  emit (Print "Consolidated Jobs:") ;;
  emit (Dump rows) ;;
  save_to_csv w rows cluster ;;
  create_html_graph w rows cluster ;;
  emit (Print "Script is working").

(** A user that the warning can show: any value but an [int] of more
    than 4300 digits, the default of [sys.set_int_max_str_digits] in
    Python 3.11 and later, beyond which formatting an [int] raises
    [ValueError]. Earlier versions print every [int]. *)
Definition printable (u : json) : bool :=
  match u with
  | JInt n => Z.abs n <? 10 ^ 4300
  | _ => true
  end.

Definition users_printable (jobs : list json) : Prop :=
  Forall (fun job => printable (user_of_job job) = true) jobs.

(** A text of ASCII characters. *)
Definition ascii_only (s : string) : bool :=
  forallb (fun c => code c <? 128) (list_ascii_of_string s).

(** The events that write a file. *)
Definition is_write (ev : event) : bool :=
  match ev with
  | WriteCsv _ _ | WriteHtml _ _ => true
  | _ => false
  end.

(** * Properties *)

(** ** The monad *)

Lemma bind_ret_l {A B} (a : A) (f : A -> M B) : bind (ret a) f = f a.
Proof. unfold bind, ret. destruct (f a). reflexivity. Qed.

Lemma bind_ret_r {A} (m : M A) : bind m ret = m.
Proof.
  destruct m as [out [a | e]]; simpl; [rewrite app_nil_r |]; reflexivity.
Qed.

Lemma bind_assoc {A B C} (m : M A) (f : A -> M B) (g : B -> M C) :
  bind (bind m f) g = bind m (fun a => bind (f a) g).
Proof.
  destruct m as [out [a | e]]; simpl; [| reflexivity].
  destruct (f a) as [out1 [b | e1]]; simpl; [| reflexivity].
  destruct (g b) as [out2 r]. rewrite app_assoc. reflexivity.
Qed.

Lemma bind_ok {A B} (m : M A) (f : A -> M B) out b :
  bind m f = (out, Ok b) ->
  exists out1 a out2,
    m = (out1, Ok a) /\ f a = (out2, Ok b) /\ out = out1 ++ out2.
Proof.
  destruct m as [out1 [a | e]]; simpl; [| discriminate].
  destruct (f a) as [out2 r] eqn:E. intros H. inversion H; subst.
  exists out1, a, out2. auto.
Qed.

(** ** Keys *)

Lemma key_eqb_refl k : key_eqb k k = true.
Proof. unfold key_eqb. destruct (key_eq_dec k k); congruence. Qed.

Lemma key_eqb_eq a b : key_eqb a b = true <-> a = b.
Proof. unfold key_eqb. destruct (key_eq_dec a b); split; congruence. Qed.

Lemma key_eqb_neq a b : key_eqb a b = false <-> a <> b.
Proof. unfold key_eqb. destruct (key_eq_dec a b); split; congruence. Qed.

Lemma key_eqb_sym a b : key_eqb a b = key_eqb b a.
Proof.
  unfold key_eqb. destruct (key_eq_dec a b), (key_eq_dec b a); congruence.
Qed.

(** A string is the key of itself alone. *)
Lemma num_key_not_str neg m e s : num_key neg m e <> KStr s.
Proof. unfold num_key. destruct (odd_part m e). discriminate. Qed.

Lemma hash_key_str v s : hash_key v = Some (KStr s) -> v = JStr s.
Proof.
  destruct v as [| b | n | f | s' | l | l]; simpl; try discriminate.
  - destruct b; discriminate.
  - destruct n; simpl; intros H; inversion H; try discriminate;
      exfalso; eapply num_key_not_str; eassumption.
  - destruct f; intros H; inversion H.
    exfalso; eapply num_key_not_str; eassumption.
  - congruence.
Qed.

(** ** The loop, job by job *)

(** The two updates of the loop body come to one pass of [record]. *)
Lemma update_record d u k g :
  update (getitem_default (update (getitem_default d k u) k (add_gpus g)) k u)
    k add_job
  = record d {| i_key := k; i_user := u; i_gpus := g |}.
Proof.
  induction d as [| x rest IH]; cbn.
  - repeat (rewrite key_eqb_refl; cbn). reflexivity.
  - destruct (key_eqb (e_key x) k) eqn:E; cbn; repeat (rewrite E; cbn).
    + reflexivity.
    + rewrite IH. reflexivity.
Qed.

Lemma loop_body_read d job :
  loop_body d job = bind (read_job job) (fun it => ret (record d it)).
Proof.
  unfold loop_body, read_job.
  destruct (py_get job "user" (JStr "Unknown")) as [u | e]; [| reflexivity].
  unfold lift at 1 3. simpl bind at 1. 
  destruct (py_get job "totalRequestedGPUs" (JStr "0")) as [v | e];
    [| reflexivity].
  simpl.
  destruct (parse_gpus v u) as [out [g | e]]; [| reflexivity].
  unfold setitem_with. destruct (hash_key u) as [k |]; [| reflexivity].
  simpl. rewrite update_record, !app_nil_r. reflexivity.
Qed.

Lemma for_each_read jobs : forall d,
  for_each jobs d = bind (read_all jobs) (fun its => ret (fold_left record its d)).
Proof.
  induction jobs as [| job rest IH]; intros d; simpl.
  - reflexivity.
  - rewrite loop_body_read.
    destruct (read_job job) as [out [it | e]]; [| reflexivity].
    simpl. rewrite IH.
    destruct (read_all rest) as [out' [its | e']]; simpl;
      rewrite ?app_nil_r; reflexivity.
Qed.

Lemma consolidate_jobs_read jobs :
  consolidate_jobs jobs
  = bind (read_all jobs) (fun its => ret (map to_row (fold_left record its []))).
Proof.
  unfold consolidate_jobs. rewrite for_each_read, bind_assoc.
  destruct (read_all jobs) as [out [its | e]]; simpl;
    rewrite ?app_nil_r; reflexivity.
Qed.

(** ** First-seen order *)

Lemma first_seen_snoc ks k :
  first_seen (ks ++ [k])
  = if existsb (key_eqb k) ks then first_seen ks else first_seen ks ++ [k].
Proof.
  induction ks as [| a ks IH]; simpl; [reflexivity |].
  rewrite IH. destruct (existsb (key_eqb k) ks).
  - rewrite orb_true_r. reflexivity.
  - rewrite orb_false_r, filter_app. simpl.
    destruct (key_eqb k a); simpl; [rewrite app_nil_r |]; reflexivity.
Qed.

Lemma In_first_seen ks k : In k (first_seen ks) <-> In k ks.
Proof.
  induction ks as [| a ks IH]; simpl; [tauto |].
  rewrite filter_In, IH, negb_true_iff, key_eqb_neq.
  destruct (key_eq_dec a k); intuition congruence.
Qed.

Lemma NoDup_first_seen ks : NoDup (first_seen ks).
Proof.
  induction ks as [| a ks IH]; simpl; constructor.
  - rewrite filter_In, negb_true_iff, key_eqb_neq. tauto.
  - apply NoDup_filter. exact IH.
Qed.

Lemma existsb_key_In k ks : existsb (key_eqb k) ks = true <-> In k ks.
Proof.
  rewrite existsb_exists. split.
  - intros [x [Hin Heq]]. apply key_eqb_eq in Heq. subst. exact Hin.
  - intros Hin. exists k. split; [exact Hin | apply key_eqb_refl].
Qed.

(** ** The items of a key *)

Lemma items_of_snoc k its it :
  items_of k (its ++ [it])
  = items_of k its ++ (if key_eqb (i_key it) k then [it] else []).
Proof. unfold items_of. rewrite filter_app. reflexivity. Qed.

Lemma items_of_nil_iff k its : items_of k its = [] <-> ~ In k (map i_key its).
Proof.
  unfold items_of. induction its as [| it its IH]; simpl; [tauto |].
  destruct (key_eqb (i_key it) k) eqn:E.
  - apply key_eqb_eq in E. split; [discriminate | tauto].
  - apply key_eqb_neq in E. rewrite IH. tauto.
Qed.

Lemma float_sum_snoc gs g : float_sum (gs ++ [g]) = fadd (float_sum gs) g.
Proof. unfold float_sum. rewrite fold_left_app. reflexivity. Qed.

Lemma entry_of_snoc_other its it k :
  k <> i_key it -> entry_of (its ++ [it]) k = entry_of its k.
Proof.
  intros Hne. unfold entry_of, first_user. rewrite items_of_snoc.
  assert (E : key_eqb (i_key it) k = false) by (apply key_eqb_neq; congruence).
  rewrite E, app_nil_r. reflexivity.
Qed.

Lemma entry_of_snoc_same its it :
  In (i_key it) (map i_key its) ->
  entry_of (its ++ [it]) (i_key it)
  = {| e_key := i_key it;
       e_user := e_user (entry_of its (i_key it));
       e_acc := add_job (add_gpus (i_gpus it) (e_acc (entry_of its (i_key it)))) |}.
Proof.
  intros Hin. unfold entry_of, first_user, add_job, add_gpus.
  cbn [e_acc e_user acc_totalRequestedGPUs acc_jobCount].
  rewrite items_of_snoc, key_eqb_refl, map_app, length_app.
  cbn [map List.length]. rewrite float_sum_snoc.
  destruct (items_of (i_key it) its) as [| x xs] eqn:E.
  - apply items_of_nil_iff in E. contradiction.
  - cbn [app]. f_equal. f_equal. lia.
Qed.

Lemma entry_of_snoc_new its it :
  ~ In (i_key it) (map i_key its) ->
  entry_of (its ++ [it]) (i_key it)
  = {| e_key := i_key it; e_user := i_user it;
       e_acc := add_job (add_gpus (i_gpus it) default_acc) |}.
Proof.
  intros Hin. apply items_of_nil_iff in Hin.
  unfold entry_of, first_user. rewrite items_of_snoc, key_eqb_refl, Hin.
  reflexivity.
Qed.

(** ** The loop computes the expected entries *)

Lemma record_miss its it l :
  ~ In (i_key it) l ->
  record (map (entry_of its) l) it
  = map (entry_of its) l
      ++ [ {| e_key := i_key it; e_user := i_user it;
              e_acc := add_job (add_gpus (i_gpus it) default_acc) |} ].
Proof.
  induction l as [| k l IH]; simpl; intros Hin; [reflexivity |].
  assert (E : key_eqb k (i_key it) = false) by (apply key_eqb_neq; tauto).
  rewrite E, IH by tauto. reflexivity.
Qed.

Lemma map_entry_of_snoc its it l :
  ~ In (i_key it) l ->
  map (entry_of (its ++ [it])) l = map (entry_of its) l.
Proof.
  intros Hin. apply map_ext_in. intros k Hk.
  apply entry_of_snoc_other. congruence.
Qed.

Lemma record_hit its it l :
  NoDup l -> In (i_key it) l -> In (i_key it) (map i_key its) ->
  record (map (entry_of its) l) it = map (entry_of (its ++ [it])) l.
Proof.
  induction l as [| k l IH]; simpl; intros Hnd Hin Hseen; [contradiction |].
  inversion Hnd as [| ? ? Hk Hnd']; subst.
  destruct (key_eqb k (i_key it)) eqn:E.
  - apply key_eqb_eq in E. subst k.
    rewrite entry_of_snoc_same, map_entry_of_snoc by assumption.
    reflexivity.
  - apply key_eqb_neq in E.
    rewrite entry_of_snoc_other by congruence.
    rewrite IH by tauto. reflexivity.
Qed.

Lemma record_expected its it :
  record (expected_entries its) it = expected_entries (its ++ [it]).
Proof.
  unfold expected_entries. rewrite map_app. simpl. rewrite first_seen_snoc.
  destruct (existsb (key_eqb (i_key it)) (map i_key its)) eqn:E.
  - apply existsb_key_In in E.
    apply record_hit; [apply NoDup_first_seen | | exact E].
    apply In_first_seen. exact E.
  - assert (Hnot : ~ In (i_key it) (map i_key its)).
    { rewrite <- existsb_key_In. congruence. }
    assert (Hnot' : ~ In (i_key it) (first_seen (map i_key its))).
    { rewrite In_first_seen. exact Hnot. }
    rewrite record_miss, map_app by exact Hnot'. simpl.
    rewrite map_entry_of_snoc, entry_of_snoc_new by assumption.
    reflexivity.
Qed.

Lemma fold_record_expected its :
  fold_left record its [] = expected_entries its.
Proof.
  induction its as [| it its IH] using rev_ind; [reflexivity |].
  rewrite fold_left_app. simpl. rewrite IH. apply record_expected.
Qed.

(** The rows are those of the expected entries of the items read. *)
Lemma consolidate_jobs_expected jobs out rows :
  consolidate_jobs jobs = (out, Ok rows) ->
  exists its,
    read_all jobs = (out, Ok its)
    /\ rows = map to_row (expected_entries its).
Proof.
  rewrite consolidate_jobs_read. intros H.
  apply bind_ok in H. destruct H as (out1 & its & out2 & Hr & Hret & Hout).
  unfold ret in Hret. inversion Hret; subst.
  exists its. rewrite app_nil_r, fold_record_expected. auto.
Qed.

Lemma consolidate_jobs_of_items jobs out its :
  read_all jobs = (out, Ok its) ->
  consolidate_jobs jobs = (out, Ok (map to_row (expected_entries its))).
Proof.
  intros H. rewrite consolidate_jobs_read, H. simpl.
  rewrite app_nil_r, fold_record_expected. reflexivity.
Qed.

(** ** From items back to jobs *)

Lemma parse_gpus_ok v u out g :
  parse_gpus v u = (out, Ok g) ->
  (py_float v = Ok g /\ out = [])
  \/ (py_float v = Raise ValueError /\ g = zero /\ out = [Warning v u]).
Proof.
  unfold parse_gpus. destruct (py_float v) as [g' | e].
  - unfold ret. intros H. inversion H. auto.
  - destruct e; simpl; intros H; inversion H. auto.
Qed.

Lemma read_job_ok job out it :
  read_job job = (out, Ok it) -> reads job it.
Proof.
  unfold read_job, reads, key_of_job, user_of_job, gpus_of_job, contribution.
  destruct (py_get job "user" (JStr "Unknown")) as [u | e]; [| discriminate].
  destruct (py_get job "totalRequestedGPUs" (JStr "0")) as [v | e];
    [| discriminate].
  simpl. destruct (parse_gpus v u) as [o [g | e]] eqn:P; [| discriminate].
  destruct (hash_key u) as [k |]; simpl; [| discriminate].
  intros H. inversion H; subst. simpl.
  apply parse_gpus_ok in P.
  destruct P as [[-> _] | (-> & -> & _)]; auto.
Qed.

Lemma read_all_ok jobs : forall out its,
  read_all jobs = (out, Ok its) ->
  Forall2 reads jobs its /\ out = flat_map warnings_of jobs.
Proof.
  induction jobs as [| job rest IH]; simpl; intros out its H.
  - inversion H. split; constructor.
  - apply bind_ok in H. destruct H as (o1 & it & o2 & Hj & Hrest & ->).
    apply bind_ok in Hrest. destruct Hrest as (o3 & its' & o4 & Hr & Hret & ->).
    inversion Hret; subst. destruct (IH _ _ Hr) as [HF ->].
    split.
    + constructor; [eapply read_job_ok; eassumption | exact HF].
    + cbn [flat_map]. change (warnings_of job) with (fst (read_job job)).
      rewrite Hj, app_nil_r. reflexivity.
Qed.

Lemma read_all_total jobs :
  Forall job_ok jobs ->
  exists its, read_all jobs = (flat_map warnings_of jobs, Ok its).
Proof.
  induction 1 as [| job rest [it Hit] _ [its IH]]; simpl.
  - exists []. reflexivity.
  - exists (it :: its). change (warnings_of job) with (fst (read_job job)).
    destruct (read_job job) as [o r]. simpl in Hit. subst r.
    simpl. rewrite IH. simpl. rewrite app_nil_r. reflexivity.
Qed.

Lemma read_all_job_ok jobs : forall out its,
  read_all jobs = (out, Ok its) -> Forall job_ok jobs.
Proof.
  induction jobs as [| job rest IH]; simpl; intros out its H; constructor.
  - apply bind_ok in H. destruct H as (o1 & it & o2 & Hj & _ & _).
    exists it. rewrite Hj. reflexivity.
  - apply bind_ok in H. destruct H as (o1 & it & o2 & _ & Hrest & _).
    apply bind_ok in Hrest. destruct Hrest as (o3 & its' & o4 & Hr & _ & _).
    eapply IH. eassumption.
Qed.

Lemma observed_keys_items jobs its :
  Forall2 reads jobs its -> observed_keys jobs = map i_key its.
Proof.
  unfold observed_keys.
  induction 1 as [| job it js ts [Hk _] _ IH]; simpl; [reflexivity |].
  rewrite Hk, IH. reflexivity.
Qed.

Lemma jobs_of_items k jobs its :
  Forall2 reads jobs its -> Forall2 reads (jobs_of k jobs) (items_of k its).
Proof.
  unfold jobs_of, items_of.
  induction 1 as [| job it js ts Hr _ IH]; simpl; [constructor |].
  pose proof Hr as [Hk _]. rewrite Hk.
  destruct (key_eqb (i_key it) k); [constructor |]; assumption.
Qed.

Lemma gpus_of_items jobs its :
  Forall2 reads jobs its -> map gpus_of_job jobs = map i_gpus its.
Proof.
  induction 1 as [| job it js ts (_ & _ & Hg) _ IH]; simpl;
    [reflexivity | rewrite Hg, IH; reflexivity].
Qed.

Lemma row_of_items k jobs its :
  Forall2 reads jobs its -> row_of jobs k = to_row (entry_of its k).
Proof.
  intros Hreads. pose proof (jobs_of_items k _ _ Hreads) as HF.
  unfold row_of, to_row, entry_of, first_user, user_total. simpl.
  rewrite (gpus_of_items _ _ HF), (Forall2_length HF).
  destruct HF as [| job it js ts (_ & Hu & _) _]; simpl;
    [| rewrite Hu]; reflexivity.
Qed.

Lemma expected_rows_items jobs its :
  Forall2 reads jobs its ->
  expected_rows jobs = map to_row (expected_entries its).
Proof.
  intros Hreads. unfold expected_rows, expected_entries.
  rewrite (observed_keys_items _ _ Hreads), map_map.
  apply map_ext. intros k. apply row_of_items. exact Hreads.
Qed.

(** The aggregation returns the expected rows, and the warnings of the
    jobs in order. *)
Lemma consolidate_jobs_rows jobs out rows :
  consolidate_jobs jobs = (out, Ok rows) ->
  rows = expected_rows jobs
  /\ out = flat_map warnings_of jobs
  /\ Forall job_ok jobs.
Proof.
  intros H. destruct (consolidate_jobs_expected _ _ _ H) as (its & Hr & ->).
  destruct (read_all_ok _ _ _ Hr) as [HF ->].
  repeat split.
  - symmetry. apply expected_rows_items. exact HF.
  - eapply read_all_job_ok. eassumption.
Qed.

(** It returns whenever no job raises. *)
Lemma consolidate_jobs_total jobs :
  Forall job_ok jobs ->
  consolidate_jobs jobs = (flat_map warnings_of jobs, Ok (expected_rows jobs)).
Proof.
  intros H. destruct (read_all_total _ H) as [its Hr].
  rewrite (consolidate_jobs_of_items _ _ _ Hr).
  destruct (read_all_ok _ _ _ Hr) as [HF _].
  rewrite (expected_rows_items _ _ HF). reflexivity.
Qed.

(** ** Signs of float results *)

Lemma iter_pos_invariant {A} (P : A -> Prop) (f : A -> A) :
  (forall x, P x -> P (f x)) -> forall p x, P x -> P (iter_pos f p x).
Proof.
  intros Hf. induction p as [p IH | p IH |]; simpl; intros x Hx; auto.
Qed.

Lemma shr_1_nonneg mrs : 0 <= shr_m mrs -> 0 <= shr_m (shr_1 mrs).
Proof.
  destruct mrs as [m r s]. simpl.
  destruct m as [| [p | p |] | [p | p |]]; simpl; lia.
Qed.

Lemma shr_nonneg mrs e n : 0 <= shr_m mrs -> 0 <= shr_m (fst (shr mrs e n)).
Proof.
  intros H. unfold shr. destruct n; simpl; try exact H.
  apply iter_pos_invariant; [apply shr_1_nonneg | exact H].
Qed.

Lemma shr_fexp_nonneg m e l :
  0 <= m -> 0 <= shr_m (fst (shr_fexp prec emax m e l)).
Proof.
  intros H. unfold shr_fexp. apply shr_nonneg.
  destruct l as [| []]; exact H.
Qed.

Lemma round_nearest_even_nonneg m l : 0 <= m -> 0 <= round_nearest_even m l.
Proof.
  intros H. unfold round_nearest_even.
  destruct l as [| []]; try destruct (Z.even m); lia.
Qed.

Lemma binary_round_aux_signed s m e l :
  0 <= m -> signed s (binary_round_aux prec emax s m e l).
Proof.
  intros H. unfold binary_round_aux.
  pose proof (shr_fexp_nonneg m e l H) as H1.
  destruct (shr_fexp prec emax m e l) as [mrs1 e1]. simpl in H1.
  pose proof (shr_fexp_nonneg _ e1 loc_Exact
                (round_nearest_even_nonneg _ (loc_of_shr_record mrs1) H1)) as H2.
  destruct (shr_fexp prec emax _ e1 loc_Exact) as [mrs2 e2]. simpl in H2.
  destruct (shr_m mrs2) as [| p | p]; [reflexivity | | lia].
  destruct (e2 <=? emax - prec); reflexivity.
Qed.

Lemma binary_round_signed s m e : signed s (binary_round prec emax s m e).
Proof.
  unfold binary_round. destruct (shl_align m e _) as [mz ez].
  apply binary_round_aux_signed. lia.
Qed.

Lemma signed_nonneg x : signed false x -> nonneg x = true.
Proof.
  destruct x as [s | s | | s m e]; simpl; intros H; subst;
    reflexivity || contradiction.
Qed.

Lemma fadd_nonneg x y :
  nonneg x = true -> nonneg y = true -> nonneg (fadd x y) = true.
Proof.
  destruct x as [[] | [] | | [] mx ex], y as [[] | [] | | [] my ey];
    intros Hx Hy; try discriminate; try reflexivity.
  apply signed_nonneg. unfold fadd, SFadd, cond_Zopp.
  destruct (shl_align mx ex _) as [ax ?], (shl_align my ey _) as [ay ?].
  simpl. apply binary_round_signed.
Qed.

Lemma of_ratio_signed s n d : signed s (of_ratio s n d).
Proof.
  unfold of_ratio, SFdiv, SFdiv_core_binary.
  set (m' := match _ with Zpos _ => _ | Z0 => _ | Zneg _ => _ end).
  assert (Hm : 0 <= m').
  { subst m'. destruct (_ - _ - _); try lia. apply Z.shiftl_nonneg. lia. }
  pose proof (Z.div_pos m' (Zpos d) Hm ltac:(lia)) as Hq.
  unfold Z.div in Hq. destruct (Z.div_eucl m' (Zpos d)) as [q r]. simpl in Hq.
  rewrite xorb_false_r. apply binary_round_aux_signed. exact Hq.
Qed.

Lemma round2_nonneg x : nonneg x = true -> nonneg (round2 x) = true.
Proof.
  destruct x as [s | s | | [] m e]; simpl; auto; try discriminate.
  intros _. apply signed_nonneg. unfold of_hundredths.
  destruct (nearest_even _ _); try reflexivity. apply of_ratio_signed.
Qed.

Lemma float_sum_nonneg gs :
  Forall (fun g => nonneg g = true) gs -> nonneg (float_sum gs) = true.
Proof.
  unfold float_sum. generalize zero, (eq_refl : nonneg zero = true).
  induction gs as [| g gs IH]; simpl; intros a Ha H; [exact Ha |].
  inversion H; subst. apply IH; [apply fadd_nonneg |]; assumption.
Qed.

(** ** The rows, user by user *)

Lemma jobs_of_In k jobs job :
  In job (jobs_of k jobs) <-> In job jobs /\ key_of_job job = Some k.
Proof.
  unfold jobs_of. rewrite filter_In.
  destruct (key_of_job job) as [k' |].
  - rewrite key_eqb_eq. intuition congruence.
  - intuition congruence.
Qed.

Lemma observed_keys_In k jobs :
  In k (observed_keys jobs) <-> exists job, In job jobs /\ key_of_job job = Some k.
Proof.
  unfold observed_keys. rewrite in_flat_map. split.
  - intros [job [Hin Hk]]. exists job. split; [exact Hin |].
    destruct (key_of_job job) as [k' |]; simpl in Hk; [| contradiction].
    destruct Hk as [-> | []]. reflexivity.
  - intros [job [Hin Hk]]. exists job. rewrite Hk. simpl. auto.
Qed.

Lemma key_of_job_user job k :
  key_of_job job = Some k -> hash_key (user_of_job job) = Some k.
Proof.
  unfold key_of_job, user_of_job.
  destruct (py_get job "user" (JStr "Unknown")); [trivial | discriminate].
Qed.

Lemma job_ok_key job : job_ok job -> key_of_job job <> None.
Proof.
  intros [it Hit]. destruct (read_job job) as [o r] eqn:E.
  simpl in Hit. subst r. apply read_job_ok in E. destruct E as [Hk _].
  congruence.
Qed.

Lemma jobs_of_observed k jobs :
  In k (observed_keys jobs) ->
  exists job rest, jobs_of k jobs = job :: rest /\ key_of_job job = Some k.
Proof.
  rewrite observed_keys_In. intros [job [Hin Hk]].
  assert (H : In job (jobs_of k jobs)) by (apply jobs_of_In; auto).
  destruct (jobs_of k jobs) as [| j rest] eqn:E; [contradiction |].
  exists j, rest. split; [reflexivity |].
  assert (Hj : In j (jobs_of k jobs)) by (rewrite E; left; reflexivity).
  apply jobs_of_In in Hj. tauto.
Qed.

Lemma row_key_row_of k jobs :
  In k (observed_keys jobs) -> row_key (row_of jobs k) = Some k.
Proof.
  intros H. destruct (jobs_of_observed _ _ H) as (job & rest & E & Hk).
  unfold row_key, row_of. simpl. rewrite E. apply key_of_job_user. exact Hk.
Qed.

Lemma jobCount_row_of k jobs :
  In k (observed_keys jobs) -> 1 <= jobCount (row_of jobs k).
Proof.
  intros H. destruct (jobs_of_observed _ _ H) as (job & rest & E & _).
  unfold row_of. simpl. rewrite E. simpl List.length. lia.
Qed.

Lemma In_expected_rows r jobs :
  In r (expected_rows jobs) <->
  exists k, In k (observed_keys jobs) /\ r = row_of jobs k.
Proof.
  unfold expected_rows. rewrite in_map_iff. split.
  - intros [k [<- Hk]]. exists k. rewrite <- In_first_seen. auto.
  - intros [k [Hk ->]]. exists k. rewrite In_first_seen. auto.
Qed.

Lemma row_keys_expected jobs :
  map row_key (expected_rows jobs) = map Some (first_seen (observed_keys jobs)).
Proof.
  unfold expected_rows. rewrite map_map. apply map_ext_in.
  intros k Hk. apply row_key_row_of. apply In_first_seen. exact Hk.
Qed.

(** ** Counting jobs *)

Lemma count_sum_record d it : count_sum (record d it) = count_sum d + 1.
Proof.
  unfold count_sum. induction d as [| x rest IH]; simpl; [lia |].
  destruct (key_eqb (e_key x) (i_key it)); simpl; lia.
Qed.

Lemma count_sum_fold its : forall d,
  count_sum (fold_left record its d) = count_sum d + Z.of_nat (List.length its).
Proof.
  induction its as [| it its IH]; intros d; simpl List.length; simpl fold_left.
  - lia.
  - rewrite IH, count_sum_record. lia.
Qed.

Lemma total_jobs_to_row d : total_jobs (map to_row d) = count_sum d.
Proof.
  unfold total_jobs, count_sum. rewrite map_map. reflexivity.
Qed.

Lemma total_jobs_consolidate jobs out rows :
  consolidate_jobs jobs = (out, Ok rows) ->
  total_jobs rows = Z.of_nat (List.length jobs).
Proof.
  intros H. destruct (consolidate_jobs_expected _ _ _ H) as (its & Hr & ->).
  rewrite <- fold_record_expected, total_jobs_to_row, count_sum_fold.
  destruct (read_all_ok _ _ _ Hr) as [HF _].
  rewrite (Forall2_length HF). reflexivity.
Qed.

(** ** Rounding to two decimals *)

Lemma nearest_even_nonneg n e : 0 <= n -> 0 <= nearest_even n e.
Proof.
  intros Hn. unfold nearest_even. destruct e as [| p | p].
  - lia.
  - apply Z.mul_nonneg_nonneg; [exact Hn | apply Z.pow_nonneg; lia].
  - assert (Hd : 0 < 2 ^ Zpos p) by (apply Z.pow_pos_nonneg; lia).
    pose proof (Z.div_pos n (2 ^ Zpos p) Hn Hd) as Hq.
    destruct (2 * (n mod 2 ^ Zpos p) ?= 2 ^ Zpos p);
      try destruct (Z.even (n / 2 ^ Zpos p)); lia.
Qed.

Lemma two_decimals_round2 x : two_decimals (round2 x).
Proof.
  destruct x as [s | s | | s m e]; simpl.
  - left. exists s, 0. split; [lia | reflexivity].
  - right. left. exists s. reflexivity.
  - right. right. reflexivity.
  - left. exists s, (nearest_even (Zpos m * 100) e).
    split; [apply nearest_even_nonneg; lia | reflexivity].
Qed.

(** ** Permuted job lists *)

Lemma Permutation_filter_same {A} (f : A -> bool) l l' :
  Permutation l l' -> Permutation (filter f l) (filter f l').
Proof.
  induction 1 as [| x l l' _ IH | x y l | l l' l'' _ IH1 _ IH2]; simpl.
  - constructor.
  - destruct (f x); [constructor |]; exact IH.
  - destruct (f x), (f y); try apply Permutation_refl. apply perm_swap.
  - eapply Permutation_trans; eassumption.
Qed.

Lemma observed_keys_perm jobs jobs' k :
  Permutation jobs jobs' ->
  In k (observed_keys jobs) -> In k (observed_keys jobs').
Proof.
  intros HP. rewrite !observed_keys_In. intros [job [Hin Hk]].
  exists job. split; [eapply Permutation_in; eassumption | exact Hk].
Qed.

Lemma first_seen_length_perm jobs jobs' :
  Permutation jobs jobs' ->
  List.length (first_seen (observed_keys jobs'))
  = List.length (first_seen (observed_keys jobs)).
Proof.
  intros HP. apply Permutation_length. apply NoDup_Permutation.
  - apply NoDup_first_seen.
  - apply NoDup_first_seen.
  - intros k. rewrite !In_first_seen. split; apply observed_keys_perm;
      [apply Permutation_sym |]; exact HP.
Qed.

(** * The aggregator: claims *)

(** The six orders of three elements. *)
Lemma Permutation_three {A} (a b c : A) l :
  Permutation [a; b; c] l ->
  In l [[a; b; c]; [a; c; b]; [b; a; c]; [c; a; b]; [b; c; a]; [c; b; a]].
Proof.
  intros H.
  assert (Ha : In a l) by (eapply Permutation_in; [exact H | left; reflexivity]).
  apply in_split in Ha. destruct Ha as (l1 & l2 & ->).
  apply Permutation_cons_app_inv in H.
  apply Permutation_length_2_inv in H.
  destruct l1 as [| x [| y [| z l1]]]; simpl in *;
    destruct H as [H | H]; inversion H; subst; simpl; tauto.
Qed.

(** C1. The job list of user A with the GPU strings "1" and "1.5" and of
    user B with "3", in any order, gives exactly two rows, without a
    warning: A with [2.5] GPUs and 2 jobs, and B with [3.0] GPUs and 1
    job, the user of the first job first; [f2_5] and [f3_0] are the floats
    that Python writes [2.5] and [3.0]. *)
Theorem consolidate_jobs_sample jobs :
  Permutation sample_jobs jobs ->
  float_of_string "2.5" = Some f2_5
  /\ float_of_string "3.0" = Some f3_0
  /\ exists rows,
       consolidate_jobs jobs = ([], Ok rows)
       /\ (rows = [row_A; row_B] \/ rows = [row_B; row_A])
       /\ (rows = [row_A; row_B] <-> hd_error jobs <> Some (job "B" (JStr "3"))).
Proof.
  intros H. split; [reflexivity |]. split; [reflexivity |].
  apply Permutation_three in H. unfold sample_jobs in H. simpl in H.
  decompose [or] H; try contradiction; subst jobs;
    (eexists; split; [vm_compute; reflexivity |]);
    (split; [(left; reflexivity) || (right; reflexivity) |]);
    unfold row_A, row_B, job; simpl; split; intros E;
    first [ reflexivity | discriminate E
          | (intros E'; discriminate E') | (exfalso; apply E; reflexivity) ].
Qed.

Lemma consolidate_jobs_sample_witness :
  float_of_string "2.5" = Some f2_5
  /\ float_of_string "3.0" = Some f3_0
  /\ exists rows,
       consolidate_jobs sample_jobs = ([], Ok rows)
       /\ (rows = [row_A; row_B] \/ rows = [row_B; row_A])
       /\ (rows = [row_A; row_B]
           <-> hd_error sample_jobs <> Some (job "B" (JStr "3"))).
Proof.
  apply (consolidate_jobs_sample sample_jobs). apply Permutation_refl.
Defined.

(** A string that [float] rejects counts for [0.0], with a warning, and
    the job is taken. *)
Lemma read_job_unparseable fields u k s :
  dict_get fields "user" (JStr "Unknown") = u ->
  hash_key u = Some k ->
  dict_get fields "totalRequestedGPUs" (JStr "0") = JStr s ->
  float_of_string s = None ->
  read_job (JObj fields)
  = ([Warning (JStr s) u], Ok {| i_key := k; i_user := u; i_gpus := zero |}).
Proof.
  intros Hu Hk Hg Hs. unfold read_job, parse_gpus. simpl.
  rewrite Hu, Hg. simpl. rewrite Hs. simpl. rewrite Hk. reflexivity.
Qed.

(** C2, at the failing input: a job whose [totalRequestedGPUs] is JSON
    [null] makes [float] raise [TypeError], which the [except ValueError]
    clause lets through: the aggregation raises. *)
Theorem consolidate_jobs_null_gpus :
  consolidate_jobs [JObj [("user", JStr "A"); ("totalRequestedGPUs", JNull)]]
  = ([], Raise TypeError).
Proof. reflexivity. Qed.

(** C6 as stated fails: a job with the GPU string "-1" gives a row with a
    negative total. *)
Lemma negative_total_counterexample :
  ~ (forall jobs out rows r,
       consolidate_jobs jobs = (out, Ok rows) -> In r rows ->
       nonneg (totalRequestedGPUs r) = true
       /\ two_decimals (totalRequestedGPUs r)
       /\ 0 <= jobCount r).
Proof.
  intros H.
  specialize (H [job "A" (JStr "-1")] []
                [ {| user := JStr "A";
                     totalRequestedGPUs := S754_finite true 4503599627370496 (-52);
                     jobCount := 1 |} ]
                _ eq_refl (or_introl eq_refl)).
  destruct H as [H _]. discriminate H.
Qed.

(** C6, amended. Every row holds [round(s, 2)] for the float sum [s] of
    its user's GPU values: a float with two decimals (or an infinity or
    NaN, when the sum is one), which is non-negative when none of the
    user's values is negative or NaN; [jobCount] is a non-negative
    integer. *)
Theorem consolidate_jobs_row_values jobs out rows r :
  consolidate_jobs jobs = (out, Ok rows) -> In r rows ->
  exists k,
    row_key r = Some k
    /\ totalRequestedGPUs r = round2 (user_total k jobs)
    /\ two_decimals (totalRequestedGPUs r)
    /\ 0 <= jobCount r
    /\ ((forall job, In job (jobs_of k jobs) -> nonneg (gpus_of_job job) = true) ->
        nonneg (totalRequestedGPUs r) = true).
Proof.
  intros H Hr. destruct (consolidate_jobs_rows _ _ _ H) as (-> & _ & _).
  apply In_expected_rows in Hr. destruct Hr as (k & Hk & ->).
  exists k. split; [apply row_key_row_of; exact Hk |].
  split; [reflexivity |]. split; [apply two_decimals_round2 |].
  split; [pose proof (jobCount_row_of _ _ Hk); lia |].
  intros Hpos. simpl. apply round2_nonneg. unfold user_total.
  apply float_sum_nonneg. apply Forall_forall. intros g Hg.
  apply in_map_iff in Hg. destruct Hg as (job & <- & Hjob). auto.
Qed.

Lemma consolidate_jobs_row_values_witness :
  exists k,
    row_key row_A = Some k
    /\ totalRequestedGPUs row_A = round2 (user_total k sample_jobs)
    /\ two_decimals (totalRequestedGPUs row_A)
    /\ 0 <= jobCount row_A
    /\ ((forall job, In job (jobs_of k sample_jobs) ->
                     nonneg (gpus_of_job job) = true) ->
        nonneg (totalRequestedGPUs row_A) = true).
Proof.
  apply (consolidate_jobs_row_values sample_jobs [] [row_A; row_B] row_A).
  - vm_compute. reflexivity.
  - simpl. left. reflexivity.
Defined.

(** The two totals of the example below are the floats that Python
    writes [0.68] and [0.67]. *)
Lemma totals_0_68_and_0_67 :
  float_of_string "0.68" = Some (S754_finite false 6124895493223875 (-53))
  /\ float_of_string "0.67" = Some (S754_finite false 6034823500676465 (-53)).
Proof. split; vm_compute; reflexivity. Qed.

(** C7 as stated fails: float addition rounds, so the sum of 0.1, 0.2
    and 0.375 depends on the order. The two lists below are permutations
    of each other; the first gives user A 0.68 GPUs, the second 0.67. *)
Lemma permuted_totals_counterexample :
  ~ (forall jobs jobs' out out' rows rows',
       Permutation jobs jobs' ->
       consolidate_jobs jobs = (out, Ok rows) ->
       consolidate_jobs jobs' = (out', Ok rows') ->
       forall r, In r rows ->
         exists r', In r' rows'
                    /\ user r' = user r
                    /\ totalRequestedGPUs r' = totalRequestedGPUs r
                    /\ jobCount r' = jobCount r).
Proof.
  intros H.
  set (a := job "A" (JStr "0.1")). set (b := job "A" (JStr "0.2")).
  set (c := job "A" (JStr "0.375")).
  assert (HP : Permutation [a; b; c] [b; c; a]).
  { apply Permutation_trans with (l' := [b; a; c]);
      [apply perm_swap | apply perm_skip, perm_swap]. }
  specialize (H [a; b; c] [b; c; a] []  []
                [ {| user := JStr "A";
                     totalRequestedGPUs := S754_finite false 6124895493223875 (-53);
                     jobCount := 3 |} ]
                [ {| user := JStr "A";
                     totalRequestedGPUs := S754_finite false 6034823500676465 (-53);
                     jobCount := 3 |} ]
                HP eq_refl eq_refl _ (or_introl eq_refl)).
  destruct H as (r' & [<- | []] & _ & Ht & _). discriminate Ht.
Qed.

(** C7, amended. Aggregating a permutation of a job list succeeds when
    aggregating the list does, prints the same warnings up to order, and
    gives as many rows; every row has a row for the same user with the
    same [jobCount], and that row is the same, total included, when the
    jobs of this user come in the same relative order in both lists. *)
Theorem consolidate_jobs_permutation jobs jobs' out rows :
  Permutation jobs jobs' ->
  consolidate_jobs jobs = (out, Ok rows) ->
  exists out' rows',
    consolidate_jobs jobs' = (out', Ok rows')
    /\ Permutation out out'
    /\ List.length rows' = List.length rows
    /\ (forall r', In r' rows' -> exists r, In r rows /\ row_key r = row_key r')
    /\ forall r, In r rows ->
         exists r', In r' rows'
                    /\ row_key r' = row_key r
                    /\ jobCount r' = jobCount r
                    /\ (forall k, row_key r = Some k ->
                                  jobs_of k jobs' = jobs_of k jobs -> r' = r).
Proof.
  intros HP H. destruct (consolidate_jobs_rows _ _ _ H) as (-> & -> & Hok).
  assert (Hok' : Forall job_ok jobs').
  { eapply Permutation_Forall; eassumption. }
  exists (flat_map warnings_of jobs'), (expected_rows jobs').
  split; [apply consolidate_jobs_total; exact Hok' |].
  split; [apply Permutation_flat_map; exact HP |].
  split.
  { unfold expected_rows. rewrite !length_map.
    apply first_seen_length_perm. exact HP. }
  split.
  { intros r' Hr'. apply In_expected_rows in Hr'. destruct Hr' as (k & Hk' & ->).
    pose proof (observed_keys_perm _ _ k (Permutation_sym HP) Hk') as Hk.
    exists (row_of jobs k).
    split; [apply In_expected_rows; exists k; auto |].
    rewrite !row_key_row_of by assumption. reflexivity. }
  intros r Hr. apply In_expected_rows in Hr. destruct Hr as (k & Hk & ->).
  pose proof (observed_keys_perm _ _ k HP Hk) as Hk'.
  exists (row_of jobs' k).
  split; [apply In_expected_rows; exists k; auto |].
  split; [rewrite !row_key_row_of by assumption; reflexivity |].
  split.
  - unfold row_of. simpl. f_equal. apply Permutation_length.
    apply Permutation_sym. unfold jobs_of. apply Permutation_filter_same.
    exact HP.
  - intros k0 Hk0 Heq. rewrite row_key_row_of in Hk0 by assumption.
    inversion Hk0; subst k0. unfold row_of, user_total. rewrite Heq.
    reflexivity.
Qed.

Lemma consolidate_jobs_permutation_witness :
  exists out' rows',
    consolidate_jobs [job "B" (JStr "3"); job "A" (JStr "1"); job "A" (JStr "1.5")]
    = (out', Ok rows')
    /\ Permutation [] out'
    /\ List.length rows' = List.length [row_A; row_B]
    /\ (forall r', In r' rows' ->
         exists r, In r [row_A; row_B] /\ row_key r = row_key r')
    /\ forall r, In r [row_A; row_B] ->
         exists r', In r' rows'
                    /\ row_key r' = row_key r
                    /\ jobCount r' = jobCount r
                    /\ (forall k, row_key r = Some k ->
                          jobs_of k [job "B" (JStr "3"); job "A" (JStr "1");
                                     job "A" (JStr "1.5")]
                          = jobs_of k sample_jobs -> r' = r).
Proof.
  apply (consolidate_jobs_permutation sample_jobs
           [job "B" (JStr "3"); job "A" (JStr "1"); job "A" (JStr "1.5")]
           [] [row_A; row_B]).
  - unfold sample_jobs.
    apply Permutation_sym, (Permutation_middle [_; _] []).
  - vm_compute. reflexivity.
Defined.

(** C8. A job record without a [user] field goes to the user "Unknown":
    the rows hold one for [JStr "Unknown"], and its [jobCount] counts the
    jobs of "Unknown", this one among them. *)
Theorem missing_user_is_Unknown jobs out rows fields :
  consolidate_jobs jobs = (out, Ok rows) ->
  In (JObj fields) jobs ->
  dict_find fields "user" = None ->
  py_get (JObj fields) "user" (JStr "Unknown") = Ok (JStr "Unknown")
  /\ In (JObj fields) (jobs_of (KStr "Unknown") jobs)
  /\ exists r,
       In r rows
       /\ user r = JStr "Unknown"
       /\ jobCount r = Z.of_nat (List.length (jobs_of (KStr "Unknown") jobs))
       /\ 1 <= jobCount r.
Proof.
  intros H Hin Hnone.
  assert (Hget : py_get (JObj fields) "user" (JStr "Unknown")
                 = Ok (JStr "Unknown")).
  { simpl. unfold dict_get. rewrite Hnone. reflexivity. }
  assert (Hkey : key_of_job (JObj fields) = Some (KStr "Unknown")).
  { unfold key_of_job. rewrite Hget. reflexivity. }
  assert (Hobs : In (KStr "Unknown") (observed_keys jobs)).
  { apply observed_keys_In. exists (JObj fields). auto. }
  destruct (consolidate_jobs_rows _ _ _ H) as (-> & _ & _).
  split; [exact Hget |].
  split; [apply jobs_of_In; auto |].
  exists (row_of jobs (KStr "Unknown")).
  split; [apply In_expected_rows; exists (KStr "Unknown"); auto |].
  split; [apply hash_key_str; apply (row_key_row_of _ _ Hobs) |].
  split; [reflexivity | apply jobCount_row_of; exact Hobs].
Qed.

Lemma missing_user_is_Unknown_witness :
  py_get (JObj [("totalRequestedGPUs", JStr "2")]) "user" (JStr "Unknown")
  = Ok (JStr "Unknown")
  /\ In (JObj [("totalRequestedGPUs", JStr "2")])
        (jobs_of (KStr "Unknown")
           [job "A" (JStr "1"); JObj [("totalRequestedGPUs", JStr "2")]])
  /\ exists r,
       In r [ {| user := JStr "A"; totalRequestedGPUs := of_Z 1; jobCount := 1 |};
              {| user := JStr "Unknown"; totalRequestedGPUs := of_Z 2;
                 jobCount := 1 |} ]
       /\ user r = JStr "Unknown"
       /\ jobCount r
          = Z.of_nat (List.length
               (jobs_of (KStr "Unknown")
                  [job "A" (JStr "1"); JObj [("totalRequestedGPUs", JStr "2")]]))
       /\ 1 <= jobCount r.
Proof.
  apply (missing_user_is_Unknown
           [job "A" (JStr "1"); JObj [("totalRequestedGPUs", JStr "2")]] []).
  - vm_compute. reflexivity.
  - simpl. right. left. reflexivity.
  - reflexivity.
Defined.

(** C10. The rows are one per distinct user key observed, in first-seen
    order of the users; every job has a user key; the [jobCount] fields
    sum to the number of jobs, and each is at least 1. *)
Theorem consolidate_jobs_one_row_per_user jobs out rows :
  consolidate_jobs jobs = (out, Ok rows) ->
  map row_key rows = map Some (first_seen (observed_keys jobs))
  /\ NoDup (map row_key rows)
  /\ (forall k, In (Some k) (map row_key rows) <->
                exists job, In job jobs /\ key_of_job job = Some k)
  /\ (forall job, In job jobs -> key_of_job job <> None)
  /\ total_jobs rows = Z.of_nat (List.length jobs)
  /\ Forall (fun r => 1 <= jobCount r) rows.
Proof.
  intros H. pose proof (total_jobs_consolidate _ _ _ H) as Htotal.
  destruct (consolidate_jobs_rows _ _ _ H) as (-> & _ & Hok).
  rewrite row_keys_expected.
  split; [reflexivity |]. split.
  { apply Injective_map_NoDup; [| apply NoDup_first_seen].
    intros a b Hab. congruence. }
  split.
  { intros k. rewrite <- observed_keys_In, <- In_first_seen, in_map_iff.
    split; [intros [k' [Heq Hk']]; congruence | intros Hk; exists k; auto]. }
  split.
  { intros job Hin. apply job_ok_key.
    rewrite Forall_forall in Hok. auto. }
  split; [exact Htotal |].
  apply Forall_forall. intros r Hr. apply In_expected_rows in Hr.
  destruct Hr as (k & Hk & ->). apply jobCount_row_of. exact Hk.
Qed.

Lemma consolidate_jobs_one_row_per_user_witness :
  map row_key [row_A; row_B] = map Some (first_seen (observed_keys sample_jobs))
  /\ NoDup (map row_key [row_A; row_B])
  /\ (forall k, In (Some k) (map row_key [row_A; row_B]) <->
                exists job, In job sample_jobs /\ key_of_job job = Some k)
  /\ (forall job, In job sample_jobs -> key_of_job job <> None)
  /\ total_jobs [row_A; row_B] = Z.of_nat (List.length sample_jobs)
  /\ Forall (fun r => 1 <= jobCount r) [row_A; row_B].
Proof.
  apply (consolidate_jobs_one_row_per_user sample_jobs []).
  vm_compute. reflexivity.
Defined.

(** * The program: claims *)

(** The test of [login], [status_code // 100 == 2], holds for the
    statuses 200 to 299 and for no other. *)
Lemma status_2xx s : (s / 100 =? 2) = true <-> 200 <= s <= 299.
Proof.
  rewrite Z.eqb_eq. split; intros H;
    Z.to_euclidean_division_equations; lia.
Qed.

Lemma login_failure w r :
  http_post w login_url login_payload = Got r ->
  ~ (200 <= status_code r <= 299) ->
  login w = ([Print ("Login error: " ++ text r)%string], Raise (SystemExit 1)).
Proof.
  intros Hpost Hs. unfold login, requests_post. rewrite Hpost.
  rewrite bind_ret_l.
  destruct (status_code r / 100 =? 2) eqn:E; [| reflexivity].
  apply status_2xx in E. contradiction.
Qed.

(** [login] prints only when it fails. *)
Lemma login_ok_silent w out token : login w = (out, Ok token) -> out = [].
Proof.
  unfold login, requests_post.
  destruct (http_post w login_url login_payload) as [| r]; [discriminate |].
  rewrite bind_ret_l.
  destruct (status_code r / 100 =? 2); [| discriminate].
  unfold json_loads. destruct (body r) as [v |]; [| discriminate].
  rewrite bind_ret_l. unfold lift. congruence.
Qed.

(** C4. When the token endpoint answers with a status outside 200 to
    299, [login] prints the response body (after "Login error: ") and
    exits with code 1; nothing else is printed and no file is written. *)
Theorem login_failure_is_fatal w cluster r :
  args w = Ok cluster ->
  http_post w login_url login_payload = Got r ->
  ~ (200 <= status_code r <= 299) ->
  login w = ([Print ("Login error: " ++ text r)%string], Raise (SystemExit 1))
  /\ fst (main w) = [Print ("Login error: " ++ text r)%string]
  /\ exit_code (snd (main w)) = 1
  /\ files_written (fst (main w)) = [].
Proof.
  intros Hargs Hpost Hs. pose proof (login_failure _ _ Hpost Hs) as Hl.
  split; [exact Hl |].
  unfold main. rewrite Hargs, Hl. simpl. auto.
Qed.

Lemma login_failure_is_fatal_witness :
  let w := sample_world
             (Got {| status_code := 401; text := "unauthorized"; body := None |})
             NoResponse in
  login w = ([Print "Login error: unauthorized"], Raise (SystemExit 1))
  /\ fst (main w) = [Print "Login error: unauthorized"]
  /\ exit_code (snd (main w)) = 1
  /\ files_written (fst (main w)) = [].
Proof.
  apply (login_failure_is_fatal
           (sample_world
              (Got {| status_code := 401; text := "unauthorized"; body := None |})
              NoResponse)
           "c1"
           {| status_code := 401; text := "unauthorized"; body := None |}).
  - reflexivity.
  - reflexivity.
  - simpl. lia.
Defined.

(** What [main] does once the jobs request is answered with [result]. *)
Lemma main_after_fetch w cluster token out out1 result :
  args w = Ok cluster ->
  login w = (out, Ok token) ->
  get_job_information w token cluster = (out1, Ok result) ->
  truthy result = false ->
  main w = (out1 ++ [Print "Script is not working"], Ok tt).
Proof.
  intros Hargs Hl Hg Ht. pose proof (login_ok_silent _ _ _ Hl) as ->.
  unfold main. rewrite Hargs, Hl. simpl. rewrite Hg. simpl. rewrite Ht.
  reflexivity.
Qed.

Lemma fetch_failure w cluster token :
  (http_get w (jobs_url cluster) token = NoResponse
   \/ exists r, http_get w (jobs_url cluster) token = Got r
                /\ 400 <= status_code r < 600) ->
  get_job_information w token cluster
  = ([Print "Script is not working"], Ok JNull).
Proof.
  unfold get_job_information, requests_get. intros [H | (r & H & Hs)]; rewrite H.
  - reflexivity.
  - rewrite bind_ret_l. unfold raise_for_status.
    assert (E : (400 <=? status_code r) && (status_code r <? 600) = true).
    { apply andb_true_iff. split; [apply Z.leb_le | apply Z.ltb_lt]; lia. }
    rewrite E. reflexivity.
Qed.

(** C5 as stated fails: a response with status 300 is not 2xx, yet
    [raise_for_status] lets it through; its jobs are returned and
    aggregated, and the two files are written. *)
Lemma fetch_non_2xx_counterexample :
  ~ (forall w cluster token out r,
       args w = Ok cluster ->
       login w = (out, Ok token) ->
       http_get w (jobs_url cluster) token = Got r ->
       ~ (200 <= status_code r <= 299) ->
       snd (get_job_information w token cluster) = Ok JNull
       /\ exit_code (snd (main w)) = 0
       /\ files_written (fst (main w)) = []).
Proof.
  intros H.
  specialize (H (sample_world token_response
                   (sample_response 300 (JArr [job "A" (JStr "1")])))
                "c1" (JStr "t") []
                {| status_code := 300; text := "...";
                   body := Some (JArr [job "A" (JStr "1")]) |}
                eq_refl eq_refl eq_refl).
  destruct H as [H _]; [simpl; lia |]. discriminate H.
Qed.

(** The run of that world: the jobs of the 300 response are reported and
    written. *)
Lemma main_status_300 :
  let rows :=
    [ {| user := JStr "A"; totalRequestedGPUs := of_Z 1; jobCount := 1 |} ] in
  main (sample_world token_response
          (sample_response 300 (JArr [job "A" (JStr "1")])))
  = ([Print "200"; Print "Consolidated Jobs:"; Dump rows;
      EnsureDir "audit";
      WriteCsv "audit/job_audit_c1_20240101_000000.csv" rows;
      Print "Audit data saved to audit/job_audit_c1_20240101_000000.csv";
      EnsureDir "audit";
      WriteHtml "audit/job_audit_c1_20240101_000001.html" rows;
      Print "HTML graph saved to audit/job_audit_c1_20240101_000001.html";
      Print "Script is working"],
     Ok tt).
Proof. vm_compute. reflexivity. Qed.

(** C5, amended. When the jobs request meets a network error or a
    response with a status from 400 to 599, [get_job_information] prints
    "Script is not working" and returns [None] instead of raising; [main]
    prints the message again and returns, so the exit code is 0, and no
    file is written. *)
Theorem fetch_failure_is_quiet w cluster token out :
  args w = Ok cluster ->
  login w = (out, Ok token) ->
  (http_get w (jobs_url cluster) token = NoResponse
   \/ exists r, http_get w (jobs_url cluster) token = Got r
                /\ 400 <= status_code r < 600) ->
  get_job_information w token cluster
  = ([Print "Script is not working"], Ok JNull)
  /\ main w = ([Print "Script is not working"; Print "Script is not working"],
               Ok tt)
  /\ exit_code (snd (main w)) = 0
  /\ files_written (fst (main w)) = [].
Proof.
  intros Hargs Hl Hfail. pose proof (fetch_failure _ _ _ Hfail) as Hg.
  split; [exact Hg |].
  rewrite (main_after_fetch _ _ _ _ _ _ Hargs Hl Hg eq_refl).
  simpl. auto.
Qed.

Lemma fetch_failure_is_quiet_witness :
  let w := sample_world token_response
             (Got {| status_code := 503; text := "unavailable"; body := None |}) in
  get_job_information w (JStr "t") "c1"
  = ([Print "Script is not working"], Ok JNull)
  /\ main w = ([Print "Script is not working"; Print "Script is not working"],
               Ok tt)
  /\ exit_code (snd (main w)) = 0
  /\ files_written (fst (main w)) = [].
Proof.
  apply (fetch_failure_is_quiet
           (sample_world token_response
              (Got {| status_code := 503; text := "unavailable"; body := None |}))
           "c1" (JStr "t") []).
  - reflexivity.
  - reflexivity.
  - right. eexists. split; [reflexivity | simpl; lia].
Defined.

(** A response that the jobs endpoint answers with a status outside 400
    to 599 and a JSON body [v]. *)
Lemma fetch_success w cluster token r v :
  http_get w (jobs_url cluster) token = Got r ->
  ~ (400 <= status_code r < 600) ->
  body r = Some v ->
  get_job_information w token cluster = ([Print "200"], Ok v).
Proof.
  intros H Hs Hb. unfold get_job_information, requests_get. rewrite H.
  rewrite bind_ret_l. unfold raise_for_status, response_json.
  assert (E : (400 <=? status_code r) && (status_code r <? 600) = false).
  { apply andb_false_iff.
    destruct (Z.leb_spec 400 (status_code r)); [right | left; reflexivity].
    apply Z.ltb_ge. lia. }
  rewrite E, Hb. reflexivity.
Qed.

(** An object whose [jobs] field is empty or absent: "No jobs found",
    exit code 0, no file. *)
Lemma main_no_jobs_in_object w cluster token out r fields :
  args w = Ok cluster ->
  login w = (out, Ok token) ->
  http_get w (jobs_url cluster) token = Got r ->
  ~ (400 <= status_code r < 600) ->
  body r = Some (JObj fields) ->
  fields <> [] ->
  truthy (dict_get fields "jobs" (JArr [])) = false ->
  main w = ([Print "200"; Print "No jobs found in the API response."], Ok tt).
Proof.
  intros Hargs Hl Hget Hs Hb Hne Hjobs.
  pose proof (login_ok_silent _ _ _ Hl) as ->.
  pose proof (fetch_success _ _ _ _ _ Hget Hs Hb) as Hg.
  unfold main. rewrite Hargs, Hl. simpl. rewrite Hg. simpl.
  destruct fields as [| f fs]; [congruence |].
  simpl. rewrite Hjobs. reflexivity.
Qed.

(** A response whose JSON value is empty (a bare [[]], [{}], [null]):
    "Script is not working", exit code 0, no file. *)
Lemma main_empty_result w cluster token out r v :
  args w = Ok cluster ->
  login w = (out, Ok token) ->
  http_get w (jobs_url cluster) token = Got r ->
  ~ (400 <= status_code r < 600) ->
  body r = Some v ->
  truthy v = false ->
  main w = ([Print "200"; Print "Script is not working"], Ok tt).
Proof.
  intros Hargs Hl Hget Hs Hb Hv.
  pose proof (fetch_success _ _ _ _ _ Hget Hs Hb) as Hg.
  rewrite (main_after_fetch _ _ _ _ _ _ Hargs Hl Hg Hv). reflexivity.
Qed.

(** C3, at the failing input: the jobs endpoint answers 200 with the bare
    empty list [[]]. The test [if result:] sends the empty list to the
    [else] branch: the program prints "200" and "Script is not working",
    not "No jobs found"; it still exits with code 0 and writes no file. *)
Theorem main_bare_empty_list :
  let w := sample_world token_response (sample_response 200 (JArr [])) in
  main w = ([Print "200"; Print "Script is not working"], Ok tt)
  /\ exit_code (snd (main w)) = 0
  /\ files_written (fst (main w)) = [].
Proof. repeat split. Qed.

(** * More properties of the aggregator *)

Lemma read_job_value fields :
  read_job (JObj fields)
  = let u := dict_get fields "user" (JStr "Unknown") in
    let v := dict_get fields "totalRequestedGPUs" (JStr "0") in
    match py_float v, hash_key u with
    | Ok g, Some k => ([], Ok {| i_key := k; i_user := u; i_gpus := g |})
    | Ok g, None => ([], Raise TypeError)
    | Raise ValueError, Some k =>
        ([Warning v u], Ok {| i_key := k; i_user := u; i_gpus := zero |})
    | Raise ValueError, None => ([Warning v u], Raise TypeError)
    | Raise e, _ => ([], Raise e)
    end.
Proof.
  unfold read_job, parse_gpus. simpl.
  destruct (py_float (dict_get fields "totalRequestedGPUs" (JStr "0")))
    as [g | []];
    destruct (hash_key (dict_get fields "user" (JStr "Unknown")));
    reflexivity.
Qed.

Lemma read_job_not_dict job :
  (forall fields, job <> JObj fields) ->
  read_job job = ([], Raise AttributeError).
Proof.
  intros H. destruct job; try reflexivity. exfalso. eapply H. reflexivity.
Qed.

Lemma job_ok_acceptable job : job_ok job <-> acceptable job.
Proof.
  unfold job_ok, acceptable. destruct job as [| b | n | f | s | l | fields];
    try (split; [intros [it H]; discriminate H
                | intros (fs & k & H & _); discriminate H]).
  rewrite read_job_value. cbv zeta. split.
  - intros [it H]. exists fields.
    destruct (py_float _) as [g | e] eqn:Ef;
      destruct (hash_key _) as [k |] eqn:Ek;
      try (destruct e; discriminate H); try discriminate H.
    + exists k. eauto.
    + exists k. destruct e; try discriminate H. auto.
  - intros (fs & k & Hj & Hk & Hf). inversion Hj; subst fs. rewrite Hk.
    destruct Hf as [[g Hg] | Hv]; [rewrite Hg | rewrite Hv]; eexists;
      reflexivity.
Qed.

Lemma warnings_of_expected job : warnings_of job = expected_warning job.
Proof.
  unfold warnings_of, expected_warning.
  destruct job as [| b | n | f | s | l | fields]; try reflexivity.
  rewrite read_job_value. cbv zeta.
  destruct (py_float (dict_get fields "totalRequestedGPUs" (JStr "0"))) as [g | []]; destruct (hash_key (dict_get fields "user" (JStr "Unknown"))); reflexivity.
Qed.

Lemma flat_map_warnings jobs :
  flat_map warnings_of jobs = flat_map expected_warning jobs.
Proof.
  apply flat_map_ext. apply warnings_of_expected.
Qed.

(** [float] raises one of three exceptions, and [ValueError] on a string
    alone. *)
Lemma py_float_raises v e :
  py_float v = Raise e ->
  e = ValueError \/ e = TypeError \/ e = OverflowError.
Proof.
  destruct v as [| b | n | f | s | l | l]; simpl; intros H;
    try (inversion H; auto; fail).
  - unfold float_of_int in H. destruct (of_Z n); inversion H. auto.
  - destruct (float_of_string s); inversion H. auto.
Qed.

Lemma py_float_value_error v :
  py_float v = Raise ValueError <->
  exists s, v = JStr s /\ float_of_string s = None.
Proof.
  split.
  - destruct v as [| b | n | f | s | l | l]; simpl; intros H;
      try discriminate H.
    + unfold float_of_int in H. destruct (of_Z n); discriminate H.
    + exists s. destruct (float_of_string s); [discriminate H | auto].
  - intros (s & -> & Hs). simpl. rewrite Hs. reflexivity.
Qed.

Lemma read_job_raises job o e :
  read_job job = (o, Raise e) ->
  e = AttributeError \/ e = TypeError \/ e = OverflowError.
Proof.
  destruct job as [| b | n | f | s | l | fields];
    try (intros H; inversion H; auto; fail).
  rewrite read_job_value. cbv zeta.
  destruct (py_float (dict_get fields "totalRequestedGPUs" (JStr "0"))) as [g | e'] eqn:Ef.
  - destruct (hash_key (dict_get fields "user" (JStr "Unknown"))); intros H; inversion H. auto.
  - pose proof (py_float_raises _ _ Ef) as [-> | [-> | ->]];
      destruct (hash_key (dict_get fields "user" (JStr "Unknown"))); intros H; inversion H; auto.
Qed.

Lemma bind_raise {A B} (m : M A) (f : A -> B) o e :
  bind m (fun a => ret (f a)) = (o, Raise e) -> m = (o, Raise e).
Proof.
  destruct m as [o1 [a | e1]]; simpl; intros H; inversion H. reflexivity.
Qed.

Lemma read_all_raise jobs : forall o e,
  read_all jobs = (o, Raise e) ->
  exists job o', In job jobs /\ read_job job = (o', Raise e).
Proof.
  induction jobs as [| job rest IH]; simpl; intros o e H; [discriminate H |].
  destruct (read_job job) as [o1 [it | e1]] eqn:Ej.
  - simpl in H. destruct (read_all rest) as [o2 [its | e2]] eqn:Er;
      simpl in H; inversion H; subst.
    destruct (IH _ _ eq_refl) as (j & o' & Hin & Hj). eauto.
  - simpl in H. inversion H; subst. exists job, o. auto.
Qed.


(** X1. On a job list whose users can be printed (none is an [int] of
    more than 4300 digits), [consolidate_jobs] returns rows exactly when
    every job is a dict whose user is hashable and whose GPU value
    [float] converts or rejects with [ValueError]; in any other case it
    raises. *)
Theorem consolidate_jobs_returns_iff jobs :
  users_printable jobs ->
  (exists out rows, consolidate_jobs jobs = (out, Ok rows))
  <-> Forall acceptable jobs.
Proof.
  intros _. split.
  - intros (out & rows & H). destruct (consolidate_jobs_rows _ _ _ H) as (_ & _ & Hok).
    eapply Forall_impl; [| exact Hok]. intros job. apply job_ok_acceptable.
  - intros H. eexists. eexists. apply consolidate_jobs_total.
    eapply Forall_impl; [| exact H]. intros job. apply job_ok_acceptable.
Qed.

Lemma consolidate_jobs_returns_iff_witness :
  (exists out rows, consolidate_jobs sample_jobs = (out, Ok rows))
  <-> Forall acceptable sample_jobs.
Proof.
  apply (consolidate_jobs_returns_iff sample_jobs).
  repeat constructor.
Defined.





(** X4. The warnings come in job order, at most one per job, and each is
    for a job whose GPU value is a string that [float] rejects; it shows
    that string and the user of the job. A GPU value that is a number, or
    is missing, gives no warning. *)
Theorem consolidate_jobs_warnings jobs out rows :
  consolidate_jobs jobs = (out, Ok rows) ->
  out = flat_map expected_warning jobs
  /\ (List.length out <= List.length jobs)%nat
  /\ forall ev, In ev out ->
       exists fields s,
         In (JObj fields) jobs
         /\ dict_get fields "totalRequestedGPUs" (JStr "0") = JStr s
         /\ float_of_string s = None
         /\ ev = Warning (JStr s) (dict_get fields "user" (JStr "Unknown")).
Proof.
  intros H. destruct (consolidate_jobs_rows _ _ _ H) as (_ & -> & _).
  rewrite flat_map_warnings. split; [reflexivity |]. split.
  - clear H. induction jobs as [| job rest IH]; simpl; [lia |].
    rewrite length_app.
    assert (List.length (expected_warning job) <= 1)%nat.
    { unfold expected_warning. destruct job; simpl; try lia.
      destruct (py_float _) as [| []]; simpl; lia. }
    lia.
  - intros ev Hev. apply in_flat_map in Hev. destruct Hev as (job & Hin & Hev).
    destruct job as [| b | n | f | s | l | fields]; try contradiction.
    unfold expected_warning in Hev. cbv zeta in Hev.
    destruct (py_float (dict_get fields "totalRequestedGPUs" (JStr "0")))
      as [g | e] eqn:Ef; [contradiction |].
    assert (e = ValueError) as -> by (destruct e; simpl in Hev; tauto).
    apply py_float_value_error in Ef. destruct Ef as (s & Hs & Hnone).
    destruct Hev as [<- | []]. exists fields, s. rewrite Hs. auto.
Qed.

Lemma consolidate_jobs_warnings_witness :
  [Warning (JStr "abc") (JStr "A")]
  = flat_map expected_warning [job "A" (JStr "abc"); job "A" (JInt 2)]
  /\ (List.length [Warning (JStr "abc") (JStr "A")]
      <= List.length [job "A" (JStr "abc"); job "A" (JInt 2)])%nat
  /\ forall ev, In ev [Warning (JStr "abc") (JStr "A")] ->
       exists fields s,
         In (JObj fields) [job "A" (JStr "abc"); job "A" (JInt 2)]
         /\ dict_get fields "totalRequestedGPUs" (JStr "0") = JStr s
         /\ float_of_string s = None
         /\ ev = Warning (JStr s) (dict_get fields "user" (JStr "Unknown")).
Proof.
  apply (consolidate_jobs_warnings [job "A" (JStr "abc"); job "A" (JInt 2)]
           [Warning (JStr "abc") (JStr "A")]
           [ {| user := JStr "A"; totalRequestedGPUs := of_Z 2; jobCount := 2 |} ]).
  vm_compute. reflexivity.
Defined.

(** ** Defaults of the job fields *)

Lemma dict_find_app fields more name :
  dict_find (fields ++ more) name
  = match dict_find fields name with
    | Some x => Some x
    | None => dict_find more name
    end.
Proof.
  induction fields as [| [n v] rest IH]; simpl; [reflexivity |].
  destruct (String.eqb n name); [reflexivity | exact IH].
Qed.

Lemma dict_get_add_default_same name v fields :
  dict_get (add_default name v fields) name v = dict_get fields name v.
Proof.
  unfold add_default, dict_get.
  destruct (dict_find fields name) as [x |] eqn:E.
  - rewrite E. reflexivity.
  - rewrite dict_find_app, E. simpl. rewrite String.eqb_refl. reflexivity.
Qed.

Lemma dict_get_add_default_other name v fields other d :
  String.eqb name other = false ->
  dict_get (add_default name v fields) other d = dict_get fields other d.
Proof.
  intros Hne. unfold add_default, dict_get.
  destruct (dict_find fields name); [reflexivity |].
  rewrite dict_find_app. destruct (dict_find fields other); [reflexivity |].
  simpl. rewrite Hne. reflexivity.
Qed.

Lemma py_get_fill_defaults_user job :
  py_get (fill_defaults job) "user" (JStr "Unknown")
  = py_get job "user" (JStr "Unknown").
Proof.
  destruct job as [| b | n | f | s | l | fields]; try reflexivity. simpl.
  rewrite dict_get_add_default_other by reflexivity.
  rewrite dict_get_add_default_same. reflexivity.
Qed.

Lemma py_get_fill_defaults_gpus job :
  py_get (fill_defaults job) "totalRequestedGPUs" (JStr "0")
  = py_get job "totalRequestedGPUs" (JStr "0").
Proof.
  destruct job as [| b | n | f | s | l | fields]; try reflexivity. simpl.
  rewrite dict_get_add_default_same.
  rewrite dict_get_add_default_other by reflexivity. reflexivity.
Qed.

Lemma loop_body_fill_defaults d job :
  loop_body d (fill_defaults job) = loop_body d job.
Proof.
  unfold loop_body.
  rewrite py_get_fill_defaults_user, py_get_fill_defaults_gpus. reflexivity.
Qed.

Lemma for_each_fill_defaults jobs : forall d,
  for_each (map fill_defaults jobs) d = for_each jobs d.
Proof.
  induction jobs as [| job rest IH]; intros d; simpl; [reflexivity |].
  rewrite loop_body_fill_defaults.
  destruct (loop_body d job) as [o [d' | e]]; simpl; [rewrite IH |];
    reflexivity.
Qed.

(** X5. A job without a [user] or a [totalRequestedGPUs] field is
    aggregated exactly as the same job with ["Unknown"] and ["0"] written
    in: same rows, same warnings, same exception. In particular a missing
    GPU value counts for [0.0] and prints no warning. *)
Theorem consolidate_jobs_fill_defaults jobs :
  consolidate_jobs (map fill_defaults jobs) = consolidate_jobs jobs
  /\ forall fields,
       dict_find fields "totalRequestedGPUs" = None ->
       contribution (JObj fields) = Some zero
       /\ expected_warning (JObj fields) = [].
Proof.
  split.
  - unfold consolidate_jobs. rewrite for_each_fill_defaults. reflexivity.
  - intros fields H. unfold contribution, expected_warning, dict_get. simpl.
    unfold dict_get. rewrite H. split; reflexivity.
Qed.

(** ** The rows as a function of the job list *)

(** X6. When [consolidate_jobs] returns, its rows are, for each distinct
    user key in first-seen order: the user of the first job with that
    key, the float sum of the GPU values of the jobs with that key,
    rounded to two decimals, and the number of these jobs. *)
Theorem consolidate_jobs_is_expected_rows jobs out rows :
  consolidate_jobs jobs = (out, Ok rows) ->
  rows = map (row_of jobs) (first_seen (observed_keys jobs))
  /\ forall r, In r rows ->
       exists k first others,
         row_key r = Some k
         /\ jobs_of k jobs = first :: others
         /\ py_get first "user" (JStr "Unknown") = Ok (user r)
         /\ totalRequestedGPUs r
            = round2 (float_sum (map gpus_of_job (first :: others)))
         /\ jobCount r = Z.of_nat (List.length (first :: others)).
Proof.
  intros H. destruct (consolidate_jobs_rows _ _ _ H) as (-> & _ & _).
  split; [reflexivity |].
  intros r Hr. apply In_expected_rows in Hr. destruct Hr as (k & Hk & ->).
  destruct (jobs_of_observed _ _ Hk) as (first & others & E & Hkey).
  exists k, first, others.
  split; [apply row_key_row_of; exact Hk |].
  split; [exact E |].
  unfold row_of, user_total. rewrite E. simpl.
  split; [| split; reflexivity].
  unfold key_of_job in Hkey. unfold user_of_job.
  destruct (py_get first "user" (JStr "Unknown")); [reflexivity | discriminate].
Qed.

Lemma consolidate_jobs_is_expected_rows_witness :
  [row_A; row_B] = map (row_of sample_jobs) (first_seen (observed_keys sample_jobs))
  /\ forall r, In r [row_A; row_B] ->
       exists k first others,
         row_key r = Some k
         /\ jobs_of k sample_jobs = first :: others
         /\ py_get first "user" (JStr "Unknown") = Ok (user r)
         /\ totalRequestedGPUs r
            = round2 (float_sum (map gpus_of_job (first :: others)))
         /\ jobCount r = Z.of_nat (List.length (first :: others)).
Proof.
  apply (consolidate_jobs_is_expected_rows sample_jobs []).
  vm_compute. reflexivity.
Defined.

(** ** Appending jobs *)

Lemma first_seen_app_prefix ks more :
  exists extra,
    first_seen (ks ++ more) = first_seen ks ++ extra
    /\ forall k, In k extra -> ~ In k ks /\ In k more.
Proof.
  induction more as [| k more IH] using rev_ind.
  - exists []. rewrite !app_nil_r. split; [reflexivity | contradiction].
  - destruct IH as (extra & IH & Hnew).
    rewrite app_assoc, first_seen_snoc, IH.
    destruct (existsb (key_eqb k) (ks ++ more)) eqn:E.
    + exists extra. split; [reflexivity |]. intros k' Hk'.
      destruct (Hnew _ Hk'). split; [assumption | apply in_or_app; auto].
    + exists (extra ++ [k]). rewrite app_assoc. split; [reflexivity |].
      intros k' Hk'. apply in_app_or in Hk'. destruct Hk' as [Hk' | [<- | []]].
      * destruct (Hnew _ Hk'). split; [assumption | apply in_or_app; auto].
      * split; [| apply in_or_app; right; left; reflexivity].
        intros Hin. assert (existsb (key_eqb k) (ks ++ more) = true).
        { apply existsb_key_In. apply in_or_app. auto. }
        congruence.
Qed.

Lemma jobs_of_app k jobs more :
  jobs_of k (jobs ++ more) = jobs_of k jobs ++ jobs_of k more.
Proof. unfold jobs_of. apply filter_app. Qed.

Lemma observed_keys_app jobs more :
  observed_keys (jobs ++ more) = observed_keys jobs ++ observed_keys more.
Proof. unfold observed_keys. apply flat_map_app. Qed.

(** X7. Jobs appended to a list leave the rows of the list in place: the
    rows of the longer list start with one row for each row of the
    shorter one, in the same order, for the same user, with [jobCount]
    raised by the number of appended jobs of that user; a row whose user
    has no appended job is unchanged. The rows of new users follow, and
    the warnings of the appended jobs come after the earlier ones. *)
Theorem consolidate_jobs_append jobs more out1 rows1 out2 rows2 :
  consolidate_jobs jobs = (out1, Ok rows1) ->
  consolidate_jobs (jobs ++ more) = (out2, Ok rows2) ->
  out2 = out1 ++ flat_map expected_warning more
  /\ exists updated added,
       rows2 = updated ++ added
       /\ (forall r, In r added -> ~ In (row_key r) (map row_key rows1))
       /\ Forall2 (fun r1 r2 =>
                     row_key r2 = row_key r1
                     /\ user r2 = user r1
                     /\ forall k, row_key r1 = Some k ->
                          jobCount r2
                          = jobCount r1 + Z.of_nat (List.length (jobs_of k more))
                          /\ (jobs_of k more = [] -> r2 = r1))
            rows1 updated.
Proof.
  intros H1 H2.
  destruct (consolidate_jobs_rows _ _ _ H1) as (-> & -> & _).
  destruct (consolidate_jobs_rows _ _ _ H2) as (-> & -> & _).
  split.
  { rewrite flat_map_app, !flat_map_warnings. reflexivity. }
  unfold expected_rows at 1. rewrite observed_keys_app.
  destruct (first_seen_app_prefix (observed_keys jobs) (observed_keys more))
    as (extra & -> & Hnew).
  rewrite map_app.
  exists (map (row_of (jobs ++ more)) (first_seen (observed_keys jobs))),
         (map (row_of (jobs ++ more)) extra).
  split; [reflexivity |]. split.
  - intros r Hr. apply in_map_iff in Hr. destruct Hr as (k & <- & Hk).
    destruct (Hnew _ Hk) as [Hnot Hmore].
    assert (Hobs : In k (observed_keys (jobs ++ more))).
    { rewrite observed_keys_app. apply in_or_app. auto. }
    rewrite (row_key_row_of _ _ Hobs), row_keys_expected.
    intros Hin. apply in_map_iff in Hin. destruct Hin as (k' & Heq & Hk').
    inversion Heq; subst k'. rewrite In_first_seen in Hk'. exact (Hnot Hk').
  - unfold expected_rows.
    assert (Hall : forall k, In k (first_seen (observed_keys jobs)) ->
                             In k (observed_keys jobs)).
    { intros k. apply In_first_seen. }
    induction (first_seen (observed_keys jobs)) as [| k ks IH]; simpl;
      constructor.
    + assert (Hk : In k (observed_keys jobs)) by (apply Hall; left; reflexivity).
      assert (Hk2 : In k (observed_keys (jobs ++ more))).
      { rewrite observed_keys_app. apply in_or_app. auto. }
      destruct (jobs_of_observed _ _ Hk) as (first & others & E & _).
      split; [rewrite !row_key_row_of by assumption; reflexivity |].
      split.
      { unfold row_of. simpl. rewrite jobs_of_app, E. reflexivity. }
      intros k0 Hk0. rewrite row_key_row_of in Hk0 by assumption.
      inversion Hk0; subst k0. split.
      * unfold row_of. simpl. rewrite jobs_of_app, length_app. lia.
      * intros Hnone. unfold row_of, user_total.
        rewrite jobs_of_app, Hnone, app_nil_r. reflexivity.
    + apply IH. intros k' Hk'. apply Hall. right. exact Hk'.
Qed.

Lemma consolidate_jobs_append_witness :
  let more := [job "B" (JStr "abc"); job "C" (JStr "1")] in
  let rows2 :=
    [ row_A;
      {| user := JStr "B"; totalRequestedGPUs := f3_0; jobCount := 2 |};
      {| user := JStr "C"; totalRequestedGPUs := of_Z 1; jobCount := 1 |} ] in
  [Warning (JStr "abc") (JStr "B")] = [] ++ flat_map expected_warning more
  /\ exists updated added,
       rows2 = updated ++ added
       /\ (forall r, In r added -> ~ In (row_key r) (map row_key [row_A; row_B]))
       /\ Forall2 (fun r1 r2 =>
                     row_key r2 = row_key r1
                     /\ user r2 = user r1
                     /\ forall k, row_key r1 = Some k ->
                          jobCount r2
                          = jobCount r1 + Z.of_nat (List.length (jobs_of k more))
                          /\ (jobs_of k more = [] -> r2 = r1))
            [row_A; row_B] updated.
Proof.
  apply (consolidate_jobs_append sample_jobs
           [job "B" (JStr "abc"); job "C" (JStr "1")] [] [row_A; row_B]
           [Warning (JStr "abc") (JStr "B")]).
  - vm_compute. reflexivity.
  - vm_compute. reflexivity.
Defined.

(** X8. When [consolidate_jobs] returns, there are no more rows than
    jobs, and there is no row only for the empty job list. *)
Theorem consolidate_jobs_row_count jobs out rows :
  consolidate_jobs jobs = (out, Ok rows) ->
  (List.length rows <= List.length jobs)%nat
  /\ (rows = [] <-> jobs = []).
Proof.
  intros H. pose proof (total_jobs_consolidate _ _ _ H) as Htotal.
  destruct (consolidate_jobs_rows _ _ _ H) as (Hrows & _ & _).
  assert (Hone : Forall (fun r => 1 <= jobCount r) rows).
  { subst rows. apply Forall_forall. intros r Hr.
    apply In_expected_rows in Hr. destruct Hr as (k & Hk & ->).
    apply jobCount_row_of. exact Hk. }
  assert (Hlen : Z.of_nat (List.length rows) <= total_jobs rows).
  { clear - Hone. unfold total_jobs.
    induction Hone as [| r rest Hr _ IH]; simpl List.length; simpl; lia. }
  split; [lia |]. split.
  - intros ->. unfold total_jobs in Htotal. simpl in Htotal.
    destruct jobs; [reflexivity | simpl in Htotal; lia].
  - intros ->. destruct rows; [reflexivity | simpl in Hlen, Htotal; lia].
Qed.

Lemma consolidate_jobs_row_count_witness :
  (List.length [row_A; row_B] <= List.length sample_jobs)%nat
  /\ ([row_A; row_B] = [] <-> sample_jobs = []).
Proof.
  apply (consolidate_jobs_row_count sample_jobs []). vm_compute. reflexivity.
Defined.

(** * More properties of the program *)

(** ** [login] *)

(** X9. [login] returns exactly when the token endpoint answers with a
    status from 200 to 299 and a JSON object that has an [access_token];
    it then returns that value and prints nothing. *)
Theorem login_returns_iff w out token :
  login w = (out, Ok token)
  <-> out = []
      /\ exists r fields,
           http_post w login_url login_payload = Got r
           /\ 200 <= status_code r <= 299
           /\ body r = Some (JObj fields)
           /\ dict_find fields "access_token" = Some token.
Proof.
  unfold login, requests_post, json_loads, subscript. split.
  - destruct (http_post w login_url login_payload) as [| r]; [discriminate |].
    rewrite bind_ret_l.
    destruct (status_code r / 100 =? 2) eqn:E; [| discriminate].
    apply status_2xx in E.
    destruct (body r) as [v |] eqn:Eb; [| discriminate].
    rewrite bind_ret_l. unfold lift.
    destruct v as [| b | n | f | s | l | fields]; try discriminate.
    destruct (dict_find fields "access_token") as [x |] eqn:Ef;
      [| discriminate].
    intros H. inversion H; subst. split; [reflexivity |].
    exists r, fields. auto.
  - intros (-> & r & fields & Hpost & Hs & Hb & Hf). rewrite Hpost.
    rewrite bind_ret_l. apply status_2xx in Hs. rewrite Hs, Hb.
    rewrite bind_ret_l, Hf. reflexivity.
Qed.

Lemma login_raises w out e :
  login w = (out, Raise e) ->
  (e = SystemExit 1 /\ exists r, out = [Print ("Login error: " ++ text r)%string])
  \/ (out = []
      /\ (e = RequestException \/ e = ValueError \/ e = TypeError
          \/ e = KeyError)).
Proof.
  unfold login, requests_post, json_loads, subscript.
  destruct (http_post w login_url login_payload) as [| r].
  - intros H. inversion H. auto.
  - rewrite bind_ret_l. destruct (status_code r / 100 =? 2).
    + destruct (body r) as [v |]; [| intros H; inversion H; auto].
      rewrite bind_ret_l. unfold lift.
      destruct v as [| b | n | f | s | l | fields];
        try (intros H; inversion H; auto 6; fail).
      destruct (dict_find fields "access_token");
        intros H; inversion H; auto 6.
    + intros H. inversion H; subst. left. split; [reflexivity |].
      exists r. reflexivity.
Qed.

(** X10. Whenever [login] raises (a status outside 200 to 299, no
    answer, a body that is not JSON or not an object, no [access_token]),
    [main] ends there: nothing more is printed, no jobs are requested, no
    file is written and the exit code is 1. *)
Theorem main_login_failure w cluster out e :
  args w = Ok cluster ->
  login w = (out, Raise e) ->
  main w = (out, Raise e)
  /\ exit_code (snd (main w)) = 1
  /\ files_written (fst (main w)) = []
  /\ (e = SystemExit 1 \/ e = RequestException \/ e = ValueError
      \/ e = TypeError \/ e = KeyError).
Proof.
  intros Hargs Hl. assert (Hm : main w = (out, Raise e)).
  { unfold main. rewrite Hargs, Hl. reflexivity. }
  rewrite Hm. split; [reflexivity |].
  destruct (login_raises _ _ _ Hl) as [[-> [r ->]] | [-> He]].
  - simpl. repeat split. left. reflexivity.
  - destruct He as [-> | [-> | [-> | ->]]]; simpl; repeat split; auto 6.
Qed.

Lemma main_login_failure_witness :
  let w := sample_world
             (Got {| status_code := 200; text := "<html>"; body := None |})
             NoResponse in
  main w = ([], Raise ValueError)
  /\ exit_code (snd (main w)) = 1
  /\ files_written (fst (main w)) = []
  /\ (ValueError = SystemExit 1 \/ ValueError = RequestException
      \/ ValueError = ValueError \/ ValueError = TypeError
      \/ ValueError = KeyError).
Proof.
  apply (main_login_failure
           (sample_world
              (Got {| status_code := 200; text := "<html>"; body := None |})
              NoResponse)
           "c1" [] ValueError).
  - reflexivity.
  - reflexivity.
Defined.

(** ** [get_job_information] *)

(** X11. For a token that is an ASCII string: when the jobs request gets
    no answer, an answer with a status from 400 to 599, or an answer
    whose body is not JSON, [get_job_information] does not raise; it
    prints "Script is not working" and returns [None]. In the last case,
    with a status outside 400 to 599, "200" has been printed first. *)
Theorem get_job_information_failure_is_none w token cluster s :
  token = JStr s ->
  ascii_only s = true ->
  (http_get w (jobs_url cluster) token = NoResponse
   \/ exists r, http_get w (jobs_url cluster) token = Got r
                /\ (400 <= status_code r < 600 \/ body r = None)) ->
  exists out,
    get_job_information w token cluster = (out, Ok JNull)
    /\ (out = [Print "Script is not working"]
        \/ (out = [Print "200"; Print "Script is not working"]
            /\ exists r, http_get w (jobs_url cluster) token = Got r
                         /\ ~ (400 <= status_code r < 600)
                         /\ body r = None)).
Proof.
  intros _ _ H. unfold get_job_information, requests_get.
  destruct H as [H | (r & H & Hr)]; rewrite H.
  - exists [Print "Script is not working"]. auto.
  - rewrite bind_ret_l. unfold raise_for_status, response_json.
    destruct ((400 <=? status_code r) && (status_code r <? 600)) eqn:E.
    + exists [Print "Script is not working"]. auto.
    + assert (Hs : ~ (400 <= status_code r < 600)).
      { intros [H1 H2]. apply Z.leb_le in H1. apply Z.ltb_lt in H2.
        rewrite H1, H2 in E. discriminate E. }
      destruct Hr as [Hr | Hb]; [contradiction |]. rewrite Hb.
      exists [Print "200"; Print "Script is not working"].
      split; [reflexivity |]. right. split; [reflexivity |]. exists r. auto.
Qed.

Lemma get_job_information_failure_is_none_witness :
  let w := sample_world token_response
             (Got {| status_code := 200; text := "<html>"; body := None |}) in
  exists out,
    get_job_information w (JStr "t") "c1" = (out, Ok JNull)
    /\ (out = [Print "Script is not working"]
        \/ (out = [Print "200"; Print "Script is not working"]
            /\ exists r, http_get w (jobs_url "c1") (JStr "t") = Got r
                         /\ ~ (400 <= status_code r < 600)
                         /\ body r = None)).
Proof.
  apply (get_job_information_failure_is_none
           (sample_world token_response
              (Got {| status_code := 200; text := "<html>"; body := None |}))
           (JStr "t") "c1" "t").
  - reflexivity.
  - reflexivity.
  - right. eexists. split; [reflexivity |]. right. reflexivity.
Defined.

Lemma get_job_information_forms w token cluster :
  exists out v,
    get_job_information w token cluster = (out, Ok v)
    /\ (out = [Print "200"]
        \/ (v = JNull
            /\ (out = [Print "Script is not working"]
                \/ out = [Print "200"; Print "Script is not working"]))).
Proof.
  unfold get_job_information, requests_get.
  destruct (http_get w (jobs_url cluster) token) as [| r].
  - exists [Print "Script is not working"], JNull. auto.
  - rewrite bind_ret_l. unfold raise_for_status, response_json.
    destruct ((400 <=? status_code r) && (status_code r <? 600)).
    + exists [Print "Script is not working"], JNull. auto.
    + destruct (body r) as [v |].
      * exists [Print "200"], v. auto.
      * exists [Print "200"; Print "Script is not working"], JNull. auto.
Qed.

(** ** The two writers *)

Lemma save_to_csv_eq w data cluster :
  save_to_csv w data cluster
  = (ensure_dir w "audit" ;;
     write_file w (csv_path w cluster) (WriteCsv (csv_path w cluster) data) ;;
     emit (Print ("Audit data saved to " ++ csv_path w cluster)%string)).
Proof. reflexivity. Qed.

Lemma create_html_graph_eq w data cluster :
  create_html_graph w data cluster
  = (column_user data ;;
     ensure_dir w "audit" ;;
     write_file w (html_path w cluster) (WriteHtml (html_path w cluster) data) ;;
     emit (Print ("HTML graph saved to " ++ html_path w cluster)%string)).
Proof. reflexivity. Qed.

Lemma write_reports_ok w cluster rows :
  rows <> [] ->
  dir_ok w "audit" = true ->
  file_ok w (csv_path w cluster) = true ->
  file_ok w (html_path w cluster) = true ->
  write_reports w cluster rows = (report w cluster rows, Ok tt).
Proof.
  intros Hrows Hd Hc Hh. unfold write_reports.
  rewrite save_to_csv_eq, create_html_graph_eq.
  unfold ensure_dir, write_file, column_user. rewrite Hd, Hc, Hh.
  destruct rows; [congruence | reflexivity].
Qed.

(** Whatever the file system does, the end of [main] prints the rows,
    and does nothing that the full report does not hold. *)
Lemma write_reports_trace w cluster rows :
  In (Dump rows) (fst (write_reports w cluster rows))
  /\ forall ev, In ev (fst (write_reports w cluster rows)) ->
                In ev (report w cluster rows).
Proof.
  unfold write_reports. rewrite save_to_csv_eq, create_html_graph_eq.
  unfold ensure_dir, write_file, column_user, report.
  destruct (dir_ok w "audit"), (file_ok w (csv_path w cluster)), rows,
    (file_ok w (html_path w cluster)); simpl; split; intros; tauto.
Qed.




(** ** [main] after the fetch *)

Lemma bind_ok_pair {A B} o (a : A) (f : A -> M B) :
  bind (o, Ok a) f = (o ++ fst (f a), snd (f a)).
Proof. simpl. destruct (f a). reflexivity. Qed.

Lemma bind_lift_ok {A B} (a : A) (f : A -> M B) : bind (lift (Ok a)) f = f a.
Proof. apply bind_ret_l. Qed.

(** [main], way by way. *)
Lemma main_cases w cluster token v :
  args w = Ok cluster ->
  login w = ([], Ok token) ->
  get_job_information w token cluster = ([Print "200"], Ok v) ->
  main w
  = if truthy v then
      match extract_jobs v with
      | Raise e => ([Print "200"], Raise e)
      | Ok j =>
          if truthy j then
            match iterate j with
            | Raise e => ([Print "200"], Raise e)
            | Ok l =>
                match consolidate_jobs l with
                | (o, Raise e) => (Print "200" :: o, Raise e)
                | (o, Ok rows) =>
                    (Print "200" :: o ++ fst (write_reports w cluster rows),
                     snd (write_reports w cluster rows))
                end
            end
          else ([Print "200"; Print "No jobs found in the API response."],
                Ok tt)
      end
    else ([Print "200"; Print "Script is not working"], Ok tt).
Proof.
  intros Hargs Hl Hg. unfold main, extract_jobs. rewrite Hargs.
  rewrite bind_lift_ok, Hl. change ([], Ok token) with (ret token).
  rewrite bind_ret_l, Hg, bind_ok_pair.
  destruct (truthy v); [| reflexivity].
  destruct (is_list v).
  - rewrite !bind_ret_l. destruct (truthy v) eqn:Ev; [| reflexivity].
    cbn [negb]. destruct (iterate v) as [l | e]; [| reflexivity].
    rewrite !bind_lift_ok.
    destruct (consolidate_jobs l) as [o [rows | e]]; [| reflexivity].
    rewrite !bind_ok_pair. fold (write_reports w cluster rows).
    reflexivity.
  - destruct (py_get v "jobs" (JArr [])) as [j | e]; [| reflexivity].
    rewrite !bind_lift_ok.
    destruct (truthy j); [| reflexivity].
    cbn [negb]. destruct (iterate j) as [l | e]; [| reflexivity].
    rewrite !bind_lift_ok.
    destruct (consolidate_jobs l) as [o [rows | e]]; [| reflexivity].
    rewrite !bind_ok_pair. fold (write_reports w cluster rows).
    reflexivity.
Qed.

Lemma fetched_main_cases w cluster v :
  fetched w cluster v ->
  exists token,
    args w = Ok cluster /\ login w = ([], Ok token)
    /\ get_job_information w token cluster = ([Print "200"], Ok v).
Proof. intros (Hargs & token & Hl & Hg). exists token. auto. Qed.

Lemma fetched_sample v :
  fetched (sample_world token_response (sample_response 200 v)) "c1" v.
Proof.
  split; [reflexivity |]. exists (JStr "t"). split; reflexivity.
Qed.

Lemma extract_list_truthy v l :
  extract_jobs v = Ok (JArr l) -> l <> [] ->
  truthy v = true /\ truthy (JArr l) = true.
Proof.
  intros Hj Hl. split; [| destruct l; [congruence | reflexivity]].
  unfold extract_jobs in Hj. destruct v; simpl in *; try discriminate.
  - inversion Hj; subst. destruct l; congruence.
  - destruct fields; [| reflexivity]. simpl in Hj. unfold dict_get in Hj.
    simpl in Hj. inversion Hj; subst. congruence.
Qed.

(** [main] on a job list that the aggregator takes. *)
Lemma main_rows w cluster v l warnings rows :
  fetched w cluster v ->
  extract_jobs v = Ok (JArr l) ->
  l <> [] ->
  consolidate_jobs l = (warnings, Ok rows) ->
  main w = (Print "200" :: warnings ++ fst (write_reports w cluster rows),
            snd (write_reports w cluster rows)).
Proof.
  intros Hf Hj Hl Hc.
  destruct (fetched_main_cases _ _ _ Hf) as (t & Ha & Hlog & Hg).
  destruct (extract_list_truthy _ _ Hj Hl) as [Hv Ht].
  rewrite (main_cases _ _ _ _ Ha Hlog Hg), Hv, Hj, Ht.
  cbn [iterate]. rewrite Hc. reflexivity.
Qed.

(** ** What the traces hold *)

Lemma files_written_app o1 o2 :
  files_written (o1 ++ o2) = files_written o1 ++ files_written o2.
Proof.
  induction o1 as [| ev rest IH]; simpl; [reflexivity |].
  destruct ev; simpl; rewrite IH; reflexivity.
Qed.

Lemma read_job_out job :
  Forall (fun ev => exists v u, ev = Warning v u) (fst (read_job job)).
Proof.
  destruct job as [| b | n | f | s | l | fields]; try (constructor; fail).
  rewrite read_job_value. cbv zeta.
  destruct (py_float (dict_get fields "totalRequestedGPUs" (JStr "0")))
    as [g | []];
    destruct (hash_key (dict_get fields "user" (JStr "Unknown")));
    simpl; repeat constructor; eauto.
Qed.

Lemma read_all_out jobs :
  Forall (fun ev => exists v u, ev = Warning v u) (fst (read_all jobs)).
Proof.
  induction jobs as [| job rest IH]; simpl; [constructor |].
  pose proof (read_job_out job) as Hj.
  destruct (read_job job) as [o1 [it | e]]; simpl in *; [| exact Hj].
  destruct (read_all rest) as [o2 [its | e]]; simpl in *;
    rewrite ?app_nil_r; apply Forall_app; auto.
Qed.

(** The aggregation prints warnings only. *)
Lemma consolidate_jobs_out jobs :
  Forall (fun ev => exists v u, ev = Warning v u) (fst (consolidate_jobs jobs)).
Proof.
  rewrite consolidate_jobs_read. pose proof (read_all_out jobs) as H.
  destruct (read_all jobs) as [o [its | e]]; simpl in *;
    rewrite ?app_nil_r; exact H.
Qed.

Lemma warnings_no_files o :
  Forall (fun ev => exists v u, ev = Warning v u) o -> files_written o = [].
Proof.
  induction 1 as [| ev rest (v & u & ->) _ IH]; simpl; [reflexivity | exact IH].
Qed.

Lemma warnings_no_write o ev :
  Forall (fun ev => exists v u, ev = Warning v u) o ->
  In ev o -> is_write ev = false.
Proof.
  intros H Hin. rewrite Forall_forall in H.
  destruct (H _ Hin) as (v & u & ->). reflexivity.
Qed.

Lemma consolidate_jobs_raise_kind jobs out e :
  consolidate_jobs jobs = (out, Raise e) ->
  e = AttributeError \/ e = TypeError \/ e = OverflowError.
Proof.
  rewrite consolidate_jobs_read. intros H. apply bind_raise in H.
  apply read_all_raise in H. destruct H as (job & o & _ & Hj).
  eapply read_job_raises. eassumption.
Qed.

Lemma consolidate_jobs_rows_nil jobs out :
  consolidate_jobs jobs = (out, Ok []) -> jobs = [].
Proof.
  intros H. pose proof (total_jobs_consolidate _ _ _ H) as Ht.
  destruct jobs; [reflexivity |]. simpl in Ht. unfold total_jobs in Ht.
  simpl in Ht. lia.
Qed.

Lemma consolidate_jobs_no_files l warnings r :
  consolidate_jobs l = (warnings, r) -> files_written warnings = [].
Proof.
  intros Hc. apply warnings_no_files.
  pose proof (consolidate_jobs_out l) as H. rewrite Hc in H. exact H.
Qed.

(** X12. The run that succeeds. When the jobs are a non-empty list that
    the aggregator takes, and the file system lets the directory [audit]
    be made sure of and the two files be written, [main] prints "200",
    the warnings of the aggregation and "Consolidated Jobs:" with the
    rows, then writes the rows to the CSV file and to the HTML file, in
    this order and each after making sure of the directory, prints the
    two paths and "Script is working", and returns (exit code 0). *)
Theorem main_success w cluster v l warnings rows :
  fetched w cluster v ->
  extract_jobs v = Ok (JArr l) ->
  l <> [] ->
  consolidate_jobs l = (warnings, Ok rows) ->
  dir_ok w "audit" = true ->
  file_ok w (csv_path w cluster) = true ->
  file_ok w (html_path w cluster) = true ->
  main w = (Print "200" :: warnings ++ report w cluster rows, Ok tt)
  /\ exit_code (snd (main w)) = 0
  /\ files_written (fst (main w)) = [csv_path w cluster; html_path w cluster].
Proof.
  intros Hf Hj Hl Hc Hd Hcsv Hhtml.
  assert (Hrows : rows <> []).
  { intros ->. apply consolidate_jobs_rows_nil in Hc. contradiction. }
  rewrite (main_rows _ _ _ _ _ _ Hf Hj Hl Hc).
  rewrite (write_reports_ok _ _ _ Hrows Hd Hcsv Hhtml).
  split; [reflexivity |]. split; [reflexivity |].
  cbn [fst files_written]. rewrite files_written_app.
  rewrite (consolidate_jobs_no_files _ _ _ Hc). reflexivity.
Qed.

Lemma main_success_witness :
  let w := sample_world token_response (sample_response 200 (JArr sample_jobs)) in
  main w = (Print "200" :: [] ++ report w "c1" [row_A; row_B], Ok tt)
  /\ exit_code (snd (main w)) = 0
  /\ files_written (fst (main w)) = [csv_path w "c1"; html_path w "c1"].
Proof.
  apply (main_success
           (sample_world token_response (sample_response 200 (JArr sample_jobs)))
           "c1" (JArr sample_jobs) sample_jobs [] [row_A; row_B]).
  - apply fetched_sample.
  - reflexivity.
  - discriminate.
  - vm_compute. reflexivity.
  - reflexivity.
  - reflexivity.
  - reflexivity.
Defined.

(** X18. A writer that fails ends the run with [OSError] and exit code 1,
    after the rows have been printed. If the CSV file cannot be written,
    no file is written and the HTML report is not tried; if the CSV file
    is written and the HTML file cannot be, the CSV file stays and
    "Script is working" is not printed. *)
Theorem main_write_failure w cluster v l warnings rows :
  fetched w cluster v ->
  extract_jobs v = Ok (JArr l) ->
  l <> [] ->
  consolidate_jobs l = (warnings, Ok rows) ->
  dir_ok w "audit" = true ->
  (file_ok w (csv_path w cluster) = false ->
   main w = (Print "200" :: warnings
               ++ [Print "Consolidated Jobs:"; Dump rows; EnsureDir "audit"],
             Raise OSError)
   /\ exit_code (snd (main w)) = 1
   /\ files_written (fst (main w)) = [])
  /\ (file_ok w (csv_path w cluster) = true ->
      file_ok w (html_path w cluster) = false ->
      main w = (Print "200" :: warnings
                  ++ [Print "Consolidated Jobs:"; Dump rows; EnsureDir "audit";
                      WriteCsv (csv_path w cluster) rows;
                      Print ("Audit data saved to " ++ csv_path w cluster)%string;
                      EnsureDir "audit"],
                Raise OSError)
      /\ exit_code (snd (main w)) = 1
      /\ files_written (fst (main w)) = [csv_path w cluster]).
Proof.
  intros Hf Hj Hl Hc Hd.
  assert (Hrows : rows <> []).
  { intros ->. apply consolidate_jobs_rows_nil in Hc. contradiction. }
  rewrite (main_rows _ _ _ _ _ _ Hf Hj Hl Hc).
  unfold write_reports. rewrite save_to_csv_eq, create_html_graph_eq.
  unfold ensure_dir, write_file, column_user. rewrite Hd.
  pose proof (consolidate_jobs_no_files _ _ _ Hc) as Hw.
  split.
  - intros Hcsv. rewrite Hcsv. cbn [bind emit raise ret app fst snd].
    split; [reflexivity |]. split; [reflexivity |].
    cbn [files_written]. rewrite files_written_app, Hw. reflexivity.
  - intros Hcsv Hhtml. rewrite Hcsv, Hhtml.
    destruct rows as [| r rest]; [congruence |].
    cbn [bind emit raise ret app fst snd].
    split; [reflexivity |]. split; [reflexivity |].
    cbn [files_written]. rewrite files_written_app, Hw. reflexivity.
Qed.

Lemma main_write_failure_witness :
  let w := {| args := Ok "a/b";
              http_post := fun _ _ => token_response;
              http_get := fun _ _ => sample_response 200 (JArr sample_jobs);
              csv_time := "20240101_000000";
              html_time := "20240101_000001";
              dir_ok := fun _ => true;
              file_ok := fun _ => false |} in
  (file_ok w (csv_path w "a/b") = false ->
   main w = (Print "200" :: []
               ++ [Print "Consolidated Jobs:"; Dump [row_A; row_B];
                   EnsureDir "audit"],
             Raise OSError)
   /\ exit_code (snd (main w)) = 1
   /\ files_written (fst (main w)) = [])
  /\ (file_ok w (csv_path w "a/b") = true ->
      file_ok w (html_path w "a/b") = false ->
      main w = (Print "200" :: []
                  ++ [Print "Consolidated Jobs:"; Dump [row_A; row_B];
                      EnsureDir "audit";
                      WriteCsv (csv_path w "a/b") [row_A; row_B];
                      Print ("Audit data saved to " ++ csv_path w "a/b")%string;
                      EnsureDir "audit"],
                Raise OSError)
      /\ exit_code (snd (main w)) = 1
      /\ files_written (fst (main w)) = [csv_path w "a/b"]).
Proof.
  apply (main_write_failure
           {| args := Ok "a/b";
              http_post := fun _ _ => token_response;
              http_get := fun _ _ => sample_response 200 (JArr sample_jobs);
              csv_time := "20240101_000000";
              html_time := "20240101_000001";
              dir_ok := fun _ => true;
              file_ok := fun _ => false |}
           "a/b" (JArr sample_jobs) sample_jobs [] [row_A; row_B]).
  - split; [reflexivity |]. exists (JStr "t"). split; reflexivity.
  - reflexivity.
  - discriminate.
  - vm_compute. reflexivity.
  - reflexivity.
Defined.

(** X13. When the aggregator raises on the job list, [main] stops after
    "200" and the warnings printed so far: the rows are not printed, no
    file is written, and the exit code is 1. *)
Theorem main_aggregation_failure w cluster v l warnings e :
  fetched w cluster v ->
  extract_jobs v = Ok (JArr l) ->
  l <> [] ->
  consolidate_jobs l = (warnings, Raise e) ->
  main w = (Print "200" :: warnings, Raise e)
  /\ exit_code (snd (main w)) = 1
  /\ files_written (fst (main w)) = [].
Proof.
  intros Hf Hj Hl Hc.
  destruct (fetched_main_cases _ _ _ Hf) as (t & Ha & Hlog & Hg).
  destruct (extract_list_truthy _ _ Hj Hl) as [Hv Ht].
  assert (Hm : main w = (Print "200" :: warnings, Raise e)).
  { rewrite (main_cases _ _ _ _ Ha Hlog Hg), Hv, Hj, Ht.
    cbn [iterate]. rewrite Hc. reflexivity. }
  rewrite Hm. split; [reflexivity |]. split.
  - destruct (consolidate_jobs_raise_kind _ _ _ Hc) as [-> | [-> | ->]];
      reflexivity.
  - simpl. eapply consolidate_jobs_no_files. eassumption.
Qed.

Lemma main_aggregation_failure_witness :
  let w := sample_world token_response
             (sample_response 200
                (JArr [job "A" (JStr "x"); job "A" JNull])) in
  main w = (Print "200" :: [Warning (JStr "x") (JStr "A")], Raise TypeError)
  /\ exit_code (snd (main w)) = 1
  /\ files_written (fst (main w)) = [].
Proof.
  apply (main_aggregation_failure
           (sample_world token_response
              (sample_response 200 (JArr [job "A" (JStr "x"); job "A" JNull])))
           "c1" (JArr [job "A" (JStr "x"); job "A" JNull])
           [job "A" (JStr "x"); job "A" JNull]
           [Warning (JStr "x") (JStr "A")] TypeError).
  - apply fetched_sample.
  - reflexivity.
  - discriminate.
  - vm_compute. reflexivity.
Defined.

(** X14. A response that is neither a list nor an object (a string, a
    number, [true]), or an object whose [jobs] is such a value or a
    non-empty object, ends [main] with [AttributeError] or [TypeError]
    right after "200": exit code 1, no file. *)
Theorem main_malformed_response w cluster v :
  fetched w cluster v ->
  truthy v = true ->
  match extract_jobs v with
  | Ok j => truthy j = true /\ is_list j = false
  | Raise _ => True
  end ->
  exists e,
    main w = ([Print "200"], Raise e)
    /\ (e = AttributeError \/ e = TypeError)
    /\ exit_code (snd (main w)) = 1
    /\ files_written (fst (main w)) = [].
Proof.
  intros Hf Hv Hj. destruct (fetched_main_cases _ _ _ Hf) as (t & Ha & Hlog & Hg).
  rewrite (main_cases _ _ _ _ Ha Hlog Hg), Hv.
  destruct (extract_jobs v) as [j | e] eqn:E.
  - destruct Hj as [Ht Hlist]. rewrite Ht.
    destruct j as [| b | n | f | s | l | fields]; try discriminate;
      try (exists TypeError; simpl; auto; fail).
    + destruct s as [| c s']; [discriminate |].
      exists AttributeError. simpl. auto.
    + destruct fields as [| [name x] fs]; [discriminate |].
      exists AttributeError. simpl. auto.
  - exists e. assert (e = AttributeError) as ->.
    { unfold extract_jobs in E. destruct v; simpl in E; congruence. }
    simpl. auto.
Qed.

Lemma main_malformed_response_witness :
  exists e,
    main (sample_world token_response
            (sample_response 200 (JObj [("jobs", JInt 3)])))
    = ([Print "200"], Raise e)
    /\ (e = AttributeError \/ e = TypeError)
    /\ exit_code
         (snd (main (sample_world token_response
                       (sample_response 200 (JObj [("jobs", JInt 3)]))))) = 1
    /\ files_written
         (fst (main (sample_world token_response
                       (sample_response 200 (JObj [("jobs", JInt 3)]))))) = [].
Proof.
  apply (main_malformed_response
           (sample_world token_response
              (sample_response 200 (JObj [("jobs", JInt 3)])))
           "c1" (JObj [("jobs", JInt 3)])).
  - apply fetched_sample.
  - reflexivity.
  - simpl. split; reflexivity.
Defined.

(** X15. An object whose [jobs] field is absent, or holds an empty value
    ([[]], [null], [{}], [""], [0]), makes [main] print "200" and
    "No jobs found in the API response." and return: exit code 0, no
    file. *)
Theorem main_no_jobs_found w cluster fields :
  fetched w cluster (JObj fields) ->
  fields <> [] ->
  truthy (dict_get fields "jobs" (JArr [])) = false ->
  main w = ([Print "200"; Print "No jobs found in the API response."], Ok tt)
  /\ exit_code (snd (main w)) = 0
  /\ files_written (fst (main w)) = [].
Proof.
  intros Hf Hne Hj. destruct (fetched_main_cases _ _ _ Hf) as (t & Ha & Hlog & Hg).
  assert (Hm : main w = ([Print "200"; Print "No jobs found in the API response."],
                         Ok tt)).
  { rewrite (main_cases _ _ _ _ Ha Hlog Hg).
    destruct fields as [| f fs]; [congruence |].
    cbn [truthy extract_jobs is_list py_get]. rewrite Hj. reflexivity. }
  rewrite Hm. repeat split.
Qed.

Lemma main_no_jobs_found_witness :
  let w := sample_world token_response
             (sample_response 200 (JObj [("total", JInt 0)])) in
  main w = ([Print "200"; Print "No jobs found in the API response."], Ok tt)
  /\ exit_code (snd (main w)) = 0
  /\ files_written (fst (main w)) = [].
Proof.
  apply (main_no_jobs_found
           (sample_world token_response
              (sample_response 200 (JObj [("total", JInt 0)])))
           "c1" [("total", JInt 0)]).
  - apply fetched_sample.
  - discriminate.
  - reflexivity.
Defined.


Lemma iterate_truthy j l : truthy j = true -> iterate j = Ok l -> l <> [].
Proof.
  destruct j as [| b | n | f | s | items | fields]; simpl; try discriminate.
  - destruct s; [discriminate |]. intros _ H. inversion H. discriminate.
  - destruct items; [discriminate |]. intros _ H. inversion H. discriminate.
  - destruct fields; [discriminate |]. intros _ H. inversion H. discriminate.
Qed.

(** X16. [main] writes nothing but the rows it has printed: a CSV or HTML
    write in the trace of a run carries a non-empty list of rows, the one
    shown under "Consolidated Jobs:", to the path made of the cluster and
    the time; the arguments were parsed and [login] returned. *)
Theorem main_writes_only_rows w ev :
  In ev (fst (main w)) -> is_write ev = true ->
  exists cluster token rows,
    args w = Ok cluster
    /\ login w = ([], Ok token)
    /\ rows <> []
    /\ In (Dump rows) (fst (main w))
    /\ (ev = WriteCsv (csv_path w cluster) rows
        \/ ev = WriteHtml (html_path w cluster) rows).
Proof.
  intros Hin Hw.
  destruct (args w) as [cluster | e] eqn:Ha.
  2:{ unfold main in Hin. rewrite Ha in Hin. contradiction. }
  destruct (login w) as [o1 [token | e]] eqn:Hl.
  2:{ exfalso. assert (Hm : main w = (o1, Raise e)).
      { unfold main. rewrite Ha, Hl. reflexivity. }
      rewrite Hm in Hin. simpl in Hin.
      destruct (login_raises _ _ _ Hl) as [[_ [r ->]] | [-> _]];
        [| contradiction].
      destruct Hin as [<- | []]. discriminate Hw. }
  pose proof (login_ok_silent _ _ _ Hl) as ->.
  destruct (get_job_information_forms w token cluster)
    as (out & v & Hg & [-> | [-> Hout]]).
  2:{ exfalso.
      rewrite (main_after_fetch _ _ _ _ _ _ Ha Hl Hg eq_refl) in Hin.
      destruct Hout as [-> | ->]; simpl in Hin;
        repeat (destruct Hin as [<- | Hin]; [discriminate Hw |]); exact Hin. }
  rewrite (main_cases _ _ _ _ Ha Hl Hg) in Hin |- *.
  destruct (truthy v).
  2:{ exfalso. simpl in Hin.
      repeat (destruct Hin as [<- | Hin]; [discriminate Hw |]). exact Hin. }
  destruct (extract_jobs v) as [j | e].
  2:{ exfalso. simpl in Hin.
      repeat (destruct Hin as [<- | Hin]; [discriminate Hw |]). exact Hin. }
  destruct (truthy j) eqn:Hj.
  2:{ exfalso. simpl in Hin.
      repeat (destruct Hin as [<- | Hin]; [discriminate Hw |]). exact Hin. }
  destruct (iterate j) as [l | e] eqn:Hi.
  2:{ exfalso. simpl in Hin.
      repeat (destruct Hin as [<- | Hin]; [discriminate Hw |]). exact Hin. }
  pose proof (consolidate_jobs_out l) as Hwarn.
  destruct (consolidate_jobs l) as [o [rows | e]] eqn:Hc; simpl in Hwarn.
  2:{ exfalso. simpl in Hin. destruct Hin as [<- | Hin]; [discriminate Hw |].
      rewrite (warnings_no_write _ _ Hwarn Hin) in Hw. discriminate Hw. }
  simpl fst in *. exists cluster, token, rows.
  destruct (write_reports_trace w cluster rows) as [Hdump Hsub].
  split; [reflexivity |]. split; [reflexivity |]. split.
  { intros ->. apply consolidate_jobs_rows_nil in Hc.
    exact (iterate_truthy _ _ Hj Hi Hc). }
  split.
  { right. apply in_or_app. right. exact Hdump. }
  destruct Hin as [<- | Hin]; [discriminate Hw |].
  apply in_app_or in Hin. destruct Hin as [Hin | Hin].
  - rewrite (warnings_no_write _ _ Hwarn Hin) in Hw. discriminate Hw.
  - apply Hsub in Hin. unfold report in Hin. simpl in Hin.
    repeat (destruct Hin as [<- | Hin]; try discriminate Hw; auto).
    contradiction.
Qed.

Lemma main_writes_only_rows_witness :
  let w := sample_world token_response (sample_response 200 (JArr sample_jobs)) in
  exists cluster token rows,
    args w = Ok cluster
    /\ login w = ([], Ok token)
    /\ rows <> []
    /\ In (Dump rows) (fst (main w))
    /\ (WriteCsv (csv_path w "c1") [row_A; row_B]
        = WriteCsv (csv_path w cluster) rows
        \/ WriteCsv (csv_path w "c1") [row_A; row_B]
           = WriteHtml (html_path w cluster) rows).
Proof.
  apply (main_writes_only_rows
           (sample_world token_response (sample_response 200 (JArr sample_jobs)))
           (WriteCsv "audit/job_audit_c1_20240101_000000.csv" [row_A; row_B])).
  - vm_compute. tauto.
  - reflexivity.
Defined.

